(** * APIGateway: a gateway, a comment store and a content filter

    Shallow embedding of the three Go services of the repository
    (api-gateway/main.go, the comment service and the censor service)
    and the properties of their specification.

    Layout: [Go] holds the few pieces of the Go runtime and of net/http
    that the handlers rely on; [CensorService], [CommentService] and
    [APIGateway] follow the three [main.go] files function by function;
    the lemmas and the theorems of the specification come last. *)

From Stdlib Require Import String Strings.Byte DecimalString DecimalPos.
From Stdlib Require Import ZArith NArith List Lia Bool Permutation.
Import ListNotations.
Local Open Scope Z_scope.

(* ===================================================================== *)
(** * The Go side: strings, machine integers, slices, JSON, net/http      *)
(* ===================================================================== *)

Module Go.

(** A Go [string] is an immutable sequence of bytes; [s[i]] is a byte. *)
Definition gostring : Type := list byte.

(** A string literal of the source, as the UTF-8 bytes of the file. *)
Definition lit (s : string) : gostring := list_byte_of_string s.

Definition byte_val (c : byte) : Z := Z.of_N (Byte.to_N c).

(** Conversion to [uint8]: arithmetic on bytes wraps modulo 256. *)
Definition uint8 (n : Z) : byte :=
  match Byte.of_N (Z.to_N (n mod 256)) with
  | Some b => b
  | None => x00
  end.

Fixpoint gostring_eqb (a b : gostring) : bool :=
  match a, b with
  | [], [] => true
  | x :: a', y :: b' => Byte.eqb x y && gostring_eqb a' b'
  | _, _ => false
  end.

(** [int] is 64 bits wide on the platforms the services run on. *)
Definition int_min : Z := - 2 ^ 63.
Definition int_max : Z := 2 ^ 63 - 1.
Definition wrap_int (n : Z) : Z := (n + 2 ^ 63) mod 2 ^ 64 - 2 ^ 63.

(** A slice is either [nil] or backed by an array; the two differ once
    encoded ([null] against [[]]). *)
Inductive slice (A : Type) : Type :=
| nil_slice : slice A
| make_slice (elems : list A) : slice A.
Arguments nil_slice {A}.
Arguments make_slice {A} elems.

Definition to_list {A} (s : slice A) : list A :=
  match s with
  | nil_slice => []
  | make_slice l => l
  end.

Definition len {A} (s : slice A) : Z := Z.of_nat (length (to_list s)).

(** [append(s, x)]: the result is never [nil]. *)
Definition append {A} (s : slice A) (x : A) : slice A :=
  make_slice (to_list s ++ [x]).

(** What encoding/json writes. *)
#[local] Unset Elimination Schemes.
Inductive json : Type :=
| JNull
| JInt (n : Z)
| JStr (s : gostring)
| JTime (t : Z)
| JArr (items : list json)
| JObj (fields : list (gostring * json)).
#[local] Set Elimination Schemes.

Definition json_slice {A} (enc : A -> json) (s : slice A) : json :=
  match s with
  | nil_slice => JNull
  | make_slice l => JArr (map enc l)
  end.

(** ** strconv.Atoi and the [%d] verb *)

Definition is_digit (c : byte) : bool :=
  (48 <=? byte_val c) && (byte_val c <=? 57).

Fixpoint parse_digits (s : gostring) (acc : Z) : option Z :=
  match s with
  | [] => Some acc
  | c :: s' =>
      if is_digit c then parse_digits s' (acc * 10 + (byte_val c - 48))
      else None
  end.

(** Base 10, an optional sign, at least one digit, and the value has to
    fit in an [int]. *)
Definition Atoi (s : gostring) : option Z :=
  let '(neg, ds) :=
    match s with
    | c :: rest =>
        if Byte.eqb c "-"%byte then (true, rest)
        else if Byte.eqb c "+"%byte then (false, rest)
        else (false, s)
    | [] => (false, [])
    end in
  match ds with
  | [] => None
  | _ =>
      match parse_digits ds 0 with
      | None => None
      | Some n =>
          let v := if neg then - n else n in
          if (int_min <=? v) && (v <=? int_max) then Some v else None
      end
  end.

Definition Itoa (n : Z) : gostring :=
  lit (NilZero.string_of_int (Z.to_int n)).

(** The number a run of decimal digits stands for, read left to right
    as [parse_digits] does. *)
Fixpoint uint_value (d : Decimal.uint) (acc : Z) : Z :=
  match d with
  | Decimal.Nil => acc
  | Decimal.D0 l => uint_value l (acc * 10 + 0)
  | Decimal.D1 l => uint_value l (acc * 10 + 1)
  | Decimal.D2 l => uint_value l (acc * 10 + 2)
  | Decimal.D3 l => uint_value l (acc * 10 + 3)
  | Decimal.D4 l => uint_value l (acc * 10 + 4)
  | Decimal.D5 l => uint_value l (acc * 10 + 5)
  | Decimal.D6 l => uint_value l (acc * 10 + 6)
  | Decimal.D7 l => uint_value l (acc * 10 + 7)
  | Decimal.D8 l => uint_value l (acc * 10 + 8)
  | Decimal.D9 l => uint_value l (acc * 10 + 9)
  end.

(** ** net/http, server side *)

Definition Header : Type := list (gostring * gostring).

Definition header_del (k : gostring) (h : Header) : Header :=
  filter (fun kv => negb (gostring_eqb (fst kv) k)) h.

Definition header_set (k v : gostring) (h : Header) : Header :=
  (k, v) :: header_del k h.

Fixpoint header_get (k : gostring) (h : Header) : gostring :=
  match h with
  | [] => []
  | (k', v) :: h' => if gostring_eqb k' k then v else header_get k h'
  end.

(** One write to the response body: a line of plain text, or one value
    written by [json.NewEncoder(w).Encode]. *)
Inductive chunk : Type :=
| PlainText (line : gostring)
| JsonValue (v : json).

(** [http.ResponseWriter]: the header map the handler can still change,
    the status line and header once they are sent, and the body. *)
Record ResponseWriter : Type := mkRW {
  rw_header : Header;
  rw_sent : option (Z * Header);
  rw_body : list chunk
}.

Definition new_writer : ResponseWriter := mkRW [] None [].

Definition StatusOK : Z := 200.
Definition StatusCreated : Z := 201.
Definition StatusBadRequest : Z := 400.
Definition StatusMethodNotAllowed : Z := 405.
Definition StatusInternalServerError : Z := 500.

Definition MethodGet : gostring := lit "GET".
Definition MethodPost : gostring := lit "POST".

(** [w.Header().Set(k, v)]: changes the map; it reaches the client only
    when it happens before the header is sent. *)
Definition Header_Set (k v : gostring) (w : ResponseWriter) : ResponseWriter :=
  mkRW (header_set k v (rw_header w)) (rw_sent w) (rw_body w).

Definition Header_Del (k : gostring) (w : ResponseWriter) : ResponseWriter :=
  mkRW (header_del k (rw_header w)) (rw_sent w) (rw_body w).

(** [w.WriteHeader(code)]: the first call wins. *)
Definition WriteHeader (code : Z) (w : ResponseWriter) : ResponseWriter :=
  match rw_sent w with
  | Some _ => w
  | None => mkRW (rw_header w) (Some (code, rw_header w)) (rw_body w)
  end.

(** [w.Write]: sends the header with status 200 when nothing sent it. *)
Definition Write (c : chunk) (w : ResponseWriter) : ResponseWriter :=
  let w' := WriteHeader StatusOK w in
  mkRW (rw_header w') (rw_sent w') (rw_body w' ++ [c]).

Definition Encode (v : json) (w : ResponseWriter) : ResponseWriter :=
  Write (JsonValue v) w.

(** [http.Error(w, msg, code)]. *)
Definition Error (msg : gostring) (code : Z) (w : ResponseWriter)
  : ResponseWriter :=
  let w := Header_Del (lit "Content-Length") w in
  let w := Header_Set (lit "Content-Type") (lit "text/plain; charset=utf-8") w in
  let w := Header_Set (lit "X-Content-Type-Options") (lit "nosniff") w in
  let w := WriteHeader code w in
  Write (PlainText msg) w.

(** What the client receives once the handler returns. *)
Record Response : Type := mkResponse {
  status : Z;
  header : Header;
  body : list chunk
}.

Definition response_of (w : ResponseWriter) : Response :=
  match rw_sent w with
  | Some (code, h) => mkResponse code h (rw_body w)
  | None => mkResponse StatusOK (rw_header w) (rw_body w)
  end.

(** [*http.Request], as far as the handlers read it. [T] is the struct
    the handler decodes the body into; [req_body] is the outcome of
    [json.NewDecoder(r.Body).Decode], [None] when it returns an error. *)
Record Request (T : Type) : Type := mkRequest {
  req_method : gostring;
  req_path : gostring;
  req_query : list (gostring * gostring);
  req_header : Header;
  req_context : list (gostring * gostring);
  req_body : option T
}.
Arguments mkRequest {T}.
Arguments req_method {T}.
Arguments req_path {T}.
Arguments req_query {T}.
Arguments req_header {T}.
Arguments req_context {T}.
Arguments req_body {T}.

(** [r.URL.Query().Get(key)]: the first value, or the empty string. *)
Definition Query_Get {T} (r : Request T) (key : gostring) : gostring :=
  header_get key (req_query r).

(** [r.Context().Value(key)]: the innermost binding. *)
Fixpoint Context_Value (ctx : list (gostring * gostring)) (key : gostring)
  : option gostring :=
  match ctx with
  | [] => None
  | (k, v) :: ctx' => if gostring_eqb k key then Some v else Context_Value ctx' key
  end.

Definition WithContext {T} (r : Request T) (ctx : list (gostring * gostring))
  : Request T :=
  mkRequest (req_method r) (req_path r) (req_query r) (req_header r) ctx
            (req_body r).

Definition WithValue (ctx : list (gostring * gostring)) (k v : gostring)
  : list (gostring * gostring) := (k, v) :: ctx.

End Go.

(* ===================================================================== *)
(** * CensorService (port 8082)                                           *)
(* ===================================================================== *)

Module CensorService.
Import Go.

Record CheckRequest : Type := mkCheckRequest { Text : gostring }.

(** [toLower]: the loop appends one byte per input byte. *)
Definition lower_byte (c : byte) : byte :=
  if (byte_val "A"%byte <=? byte_val c) && (byte_val c <=? byte_val "Z"%byte)
  then uint8 (byte_val c + (byte_val "a"%byte - byte_val "A"%byte))
  else c.

Fixpoint toLower_loop (s : gostring) (result : list byte) : list byte :=
  match s with
  | [] => result
  | c :: s' => toLower_loop s' (result ++ [lower_byte c])
  end.

Definition toLower (s : gostring) : gostring := toLower_loop s [].

(** [s[i]]; the loops of [contains] never index out of range. *)
Definition at_index (s : gostring) (i : nat) : byte := nth i s x00.

(** The inner loop of [contains], from [j] on, [n] bytes left to compare. *)
Fixpoint match_from (s substr : gostring) (i j n : nat) : bool :=
  match n with
  | O => true
  | S n' =>
      if Byte.eqb (at_index s (i + j)) (at_index substr j)
      then match_from s substr i (S j) n'
      else false
  end.

(** The outer loop, from [i] on, [n] start positions left to try. *)
Fixpoint scan_from (s substr : gostring) (i n : nat) : bool :=
  match n with
  | O => false
  | S n' =>
      if match_from s substr i 0 (length substr) then true
      else scan_from s substr (S i) n'
  end.

Definition contains (s substr : gostring) : bool :=
  if (length substr =? 0)%nat then true
  else if (length s <? length substr)%nat then false
  else scan_from s substr 0 (length s - length substr + 1).

Definition containsIgnoreCase (s substr : gostring) : bool :=
  let s := toLower s in
  let substr := toLower substr in
  contains s substr.

Definition prohibitedWords : list gostring :=
  [lit "qwerty"; lit "йцукен"; lit "zxvbnm"].

(** The [for ... range] loop returns at the first word found. *)
Fixpoint any_word (text : gostring) (words : list gostring) : bool :=
  match words with
  | [] => false
  | word :: rest =>
      if containsIgnoreCase text word then true else any_word text rest
  end.

Definition containsProhibitedWords (text : gostring) : bool :=
  any_word text prohibitedWords.

Definition checkHandler (w : ResponseWriter) (r : Request CheckRequest)
  : ResponseWriter :=
  if negb (gostring_eqb (req_method r) MethodPost) then
    Error (lit "Method not allowed") StatusMethodNotAllowed w
  else
    match req_body r with
    | None => Error (lit "Invalid JSON") StatusBadRequest w
    | Some req =>
        if containsProhibitedWords (Text req) then
          Error (lit "Text contains prohibited content") StatusBadRequest w
        else
          let w := WriteHeader StatusOK w in
          let w := Header_Set (lit "Content-Type") (lit "application/json") w in
          Encode (JObj [(lit "message", JStr (lit "Text passed censorship check"))]) w
    end.

End CensorService.

(* ===================================================================== *)
(** * CommentService (port 8081)                                          *)
(* ===================================================================== *)

Module CommentService.
Import Go.

Record Comment : Type := mkComment {
  ID : Z;
  NewsID : Z;
  ParentID : option Z;
  Text : gostring
}.

Record CreateCommentRequest : Type := mkCreateCommentRequest {
  Req_NewsID : Z;
  Req_ParentID : option Z;
  Req_Text : gostring
}.

(** The struct tags: [parent_id] is left out when the pointer is nil. *)
Definition comment_json (c : Comment) : json :=
  JObj ([(lit "id", JInt (ID c)); (lit "news_id", JInt (NewsID c))]
        ++ match ParentID c with
           | Some p => [(lit "parent_id", JInt p)]
           | None => []
           end
        ++ [(lit "text", JStr (Text c))]).

(** The two package-level variables: [comments] and [nextID]. *)
Record Store : Type := mkStore {
  comments : slice Comment;
  nextID : Z
}.

(** [var comments []Comment] and [var nextID = 1]. *)
Definition init : Store := mkStore nil_slice 1.

Definition createCommentHandler (w : ResponseWriter)
    (r : Request CreateCommentRequest) (st : Store) : ResponseWriter * Store :=
  match req_body r with
  | None => (Error (lit "Invalid JSON") StatusBadRequest w, st)
  | Some req =>
      let comment :=
        mkComment (nextID st) (Req_NewsID req) (Req_ParentID req) (Req_Text req) in
      let st := mkStore (append (comments st) comment) (nextID st) in
      let st := mkStore (comments st) (wrap_int (nextID st + 1)) in
      let w := Header_Set (lit "Content-Type") (lit "application/json") w in
      (Encode (JObj [(lit "id", JInt (ID comment))]) w, st)
  end.

(** The loop of [getCommentsHandler] over [comments]. *)
Fixpoint filter_loop (cs : list Comment) (newsID : Z)
    (filteredComments : slice Comment) : slice Comment :=
  match cs with
  | [] => filteredComments
  | comment :: rest =>
      if NewsID comment =? newsID
      then filter_loop rest newsID (append filteredComments comment)
      else filter_loop rest newsID filteredComments
  end.

Definition getCommentsHandler (w : ResponseWriter)
    (r : Request CreateCommentRequest) (st : Store) : ResponseWriter :=
  let newsIDStr := Query_Get r (lit "news_id") in
  if gostring_eqb newsIDStr [] then
    Error (lit "news_id parameter is required") StatusBadRequest w
  else
    match Atoi newsIDStr with
    | None => Error (lit "Invalid news_id parameter") StatusBadRequest w
    | Some newsID =>
        let filteredComments :=
          filter_loop (to_list (comments st)) newsID nil_slice in
        let w := Header_Set (lit "Content-Type") (lit "application/json") w in
        Encode (json_slice comment_json filteredComments) w
    end.

Definition commentsHandler (w : ResponseWriter)
    (r : Request CreateCommentRequest) (st : Store) : ResponseWriter * Store :=
  if gostring_eqb (req_method r) MethodGet then (getCommentsHandler w r st, st)
  else if gostring_eqb (req_method r) MethodPost then createCommentHandler w r st
  else (Error (lit "Method not allowed") StatusMethodNotAllowed w, st).

(** ** Requests served at the same time

    net/http runs every request in a goroutine of its own, and
    [createCommentHandler] takes no lock. A goroutine is followed
    statement by statement: each of the three statements that touch
    [comments] or [nextID] is one step, the steps of different goroutines
    interleave as the schedule says. *)

Inductive goroutine : Type :=
| Start (w : ResponseWriter) (r : Request CreateCommentRequest)
| Built (w : ResponseWriter) (comment : Comment)
| Appended (w : ResponseWriter) (comment : Comment)
| Finished (w : ResponseWriter).

Definition step (g : goroutine) (st : Store) : goroutine * Store :=
  match g with
  | Start w r =>
      match req_body r with
      | None => (Finished (Error (lit "Invalid JSON") StatusBadRequest w), st)
      | Some req =>
          (Built w (mkComment (nextID st) (Req_NewsID req) (Req_ParentID req)
                              (Req_Text req)), st)
      end
  | Built w comment =>
      (Appended w comment, mkStore (append (comments st) comment) (nextID st))
  | Appended w comment =>
      let st := mkStore (comments st) (wrap_int (nextID st + 1)) in
      let w := Header_Set (lit "Content-Type") (lit "application/json") w in
      (Finished (Encode (JObj [(lit "id", JInt (ID comment))]) w), st)
  | Finished w => (Finished w, st)
  end.

(** [gs] with the goroutine numbered [t] replaced. *)
Fixpoint set_nth {A} (t : nat) (x : A) (l : list A) : list A :=
  match l, t with
  | [], _ => []
  | _ :: l', O => x :: l'
  | y :: l', S t' => y :: set_nth t' x l'
  end.

(** The goroutine numbered [t] takes one step. *)
Fixpoint step_at (t : nat) (gs : list goroutine) (st : Store)
  : list goroutine * Store :=
  match gs, t with
  | [], _ => ([], st)
  | g :: gs', O => let '(g', st') := step g st in (g' :: gs', st')
  | g :: gs', S t' => let '(gs'', st') := step_at t' gs' st in (g :: gs'', st')
  end.

Fixpoint run (schedule : list nat) (gs : list goroutine) (st : Store)
  : list goroutine * Store :=
  match schedule with
  | [] => (gs, st)
  | t :: rest => let '(gs', st') := step_at t gs st in run rest gs' st'
  end.

Definition finished (g : goroutine) : bool :=
  match g with
  | Finished _ => true
  | _ => false
  end.

(** One call after the other, in the order given: every goroutine runs
    its three steps before the next one starts. *)
Definition serial (order : list nat) : list nat :=
  flat_map (fun t => [t; t; t]) order.

(** The handlers run one after the other on the requests of [rs]. *)
Fixpoint serve_all (rs : list (Request CreateCommentRequest)) (st : Store)
  : list Response * Store :=
  match rs with
  | [] => ([], st)
  | r :: rest =>
      let '(w, st') := commentsHandler new_writer r st in
      let '(out, st'') := serve_all rest st' in
      (response_of w :: out, st'')
  end.

(** ** The invariant of the store

    The identifiers [first, first+1, ...] of [n] comments, as the counter
    produces them. *)
Fixpoint ids_from (first : Z) (n : nat) : list Z :=
  match n with
  | O => []
  | S n' => wrap_int first :: ids_from (first + 1) n'
  end.

(** The counter is one ahead of the number of stored comments, and the
    stored identifiers are the values it went through. *)
Definition counted (st : Store) : Prop :=
  let k := length (to_list (comments st)) in
  map ID (to_list (comments st)) = ids_from 1 k
  /\ nextID st = wrap_int (1 + Z.of_nat k).

End CommentService.

(* ===================================================================== *)
(** * APIGateway (port 8080)                                              *)
(* ===================================================================== *)

Module APIGateway.
Import Go.

Record NewsShortDetailed : Type := mkNewsShortDetailed {
  News_ID : Z;
  Title : gostring;
  Content : gostring;
  PubTime : Z
}.

Record Comment : Type := mkComment {
  ID : Z;
  NewsID : Z;
  ParentID : option Z;
  Text : gostring
}.

Record NewsFullDetailed : Type := mkNewsFullDetailed {
  Short : NewsShortDetailed;
  Comments : slice Comment
}.

Definition comment_json (c : Comment) : json :=
  JObj ([(lit "id", JInt (ID c)); (lit "news_id", JInt (NewsID c))]
        ++ match ParentID c with
           | Some p => [(lit "parent_id", JInt p)]
           | None => []
           end
        ++ [(lit "text", JStr (Text c))]).

(** The fields of the embedded struct come first. *)
Definition news_full_json (n : NewsFullDetailed) : json :=
  JObj [(lit "id", JInt (News_ID (Short n)));
        (lit "title", JStr (Title (Short n)));
        (lit "content", JStr (Content (Short n)));
        (lit "pub_time", JTime (PubTime (Short n)));
        (lit "comments", json_slice comment_json (Comments n))].

(** ** Calls to the other two services *)

Inductive Host : Type :=
| CensorHost    (* http://localhost:8082 *)
| CommentHost.  (* http://localhost:8081 *)

(** An outgoing [*http.Request]: method, URL (host, path, query), header
    and the marshalled payload. *)
Record Call : Type := mkCall {
  call_method : gostring;
  call_host : Host;
  call_path : gostring;
  call_query : list (gostring * gostring);
  call_header : Header;
  call_body : option json
}.

Definition Call_Header_Set (k v : gostring) (c : Call) : Call :=
  mkCall (call_method c) (call_host c) (call_path c) (call_query c)
         (header_set k v (call_header c)) (call_body c).

(** A Go [error]. *)
Inductive error : Type :=
| nil
| Err (msg : gostring).

Definition is_nil (e : error) : bool :=
  match e with
  | nil => true
  | Err _ => false
  end.

(** Everything that does not belong to the request: the clock and the
    random source of the uuid package. *)
Record Runtime : Type := mkRuntime {
  time_Now : Z;
  uuid_New : gostring
}.

(** The request each of the three functions builds before [client.Do]:
    the payload, [http.NewRequest] and the two [req.Header.Set].
    [json.Marshal] of these maps and [http.NewRequest] on a constant URL
    do not fail, so the first error that can show up is the one of
    [client.Do]. *)
Definition listRequest (newsID : Z) (requestID : gostring) : Call :=
  let req := mkCall (lit "GET") CommentHost (lit "/comments")
                    [(lit "news_id", Itoa newsID)] [] None in
  Call_Header_Set (lit "X-Request-ID") requestID req.

Definition checkRequest (text requestID : gostring) : Call :=
  let payload := JObj [(lit "text", JStr text)] in
  let req := mkCall (lit "POST") CensorHost (lit "/check") [] [] (Some payload) in
  let req := Call_Header_Set (lit "X-Request-ID") requestID req in
  Call_Header_Set (lit "Content-Type") (lit "application/json") req.

Definition saveRequest (comment : Comment) (requestID : gostring) : Call :=
  let payload :=
    JObj [(lit "news_id", JInt (NewsID comment));
          (lit "parent_id",
           match ParentID comment with Some p => JInt p | None => JNull end);
          (lit "text", JStr (Text comment))] in
  let req := mkCall (lit "POST") CommentHost (lit "/comments") [] []
                    (Some payload) in
  let req := Call_Header_Set (lit "X-Request-ID") requestID req in
  Call_Header_Set (lit "Content-Type") (lit "application/json") req.

(** What comes back from [client.Do]: an error (no connection, timeout
    after 10 s, ...) or a response with its status code and body. *)
Inductive Reply (RespBody : Type) : Type :=
| Failed (err : gostring)
| Replied (StatusCode : Z) (Body : RespBody).
Arguments Failed {RespBody} err.
Arguments Replied {RespBody} StatusCode Body.

(** The two services and the network in front of them, each with a state
    of its own; nothing is assumed about how they answer. Response
    bodies are kept abstract: [decodeComments] is
    [json.NewDecoder(resp.Body).Decode(&comments)], the value left in
    [comments] and the error returned. *)
Record Downstream : Type := mkDownstream {
  RespBody : Type;
  decodeComments : RespBody -> slice Comment * error;
  CensorState : Type;
  StoreState : Type;
  censorService : Call -> CensorState -> Reply RespBody * CensorState;
  commentService : Call -> StoreState -> Reply RespBody * StoreState
}.

Record World (ds : Downstream) : Type := mkWorld {
  censor_state : CensorState ds;
  store_state : StoreState ds;
  calls : list Call
}.
Arguments mkWorld {ds}.
Arguments censor_state {ds}.
Arguments store_state {ds}.
Arguments calls {ds}.

Section Gateway.

Variable ds : Downstream.

(** Handlers of the gateway run in [World]: they read nothing from it but
    the replies to their calls, and every call is recorded in [calls]. *)
Definition Gw (A : Type) : Type := World ds -> A * World ds.

Definition ret {A} (a : A) : Gw A := fun wd => (a, wd).

Definition bind {A B} (m : Gw A) (k : A -> Gw B) : Gw B :=
  fun wd => let '(a, wd') := m wd in k a wd'.

Notation "x <- m ;; k" := (bind m (fun x => k))
  (at level 61, m at next level, right associativity).

(** [client.Do(req)]. *)
Definition Do (req : Call) : Gw (Reply (RespBody ds)) :=
  fun wd =>
    match call_host req with
    | CensorHost =>
        let '(resp, cs) := censorService ds req (censor_state wd) in
        (resp, mkWorld cs (store_state wd) (calls wd ++ [req]))
    | CommentHost =>
        let '(resp, ss) := commentService ds req (store_state wd) in
        (resp, mkWorld (censor_state wd) ss (calls wd ++ [req]))
    end.

Definition Handler : Type :=
  ResponseWriter -> Request Comment -> Gw ResponseWriter.

(** The log lines are left out; they are the only other use of
    [requestID]. *)
Definition loggingMiddleware (rt : Runtime) (next : Handler) : Handler :=
  fun w r =>
    let requestID := header_get (lit "X-Request-ID") (req_header r) in
    let requestID :=
      if gostring_eqb requestID [] then uuid_New rt else requestID in
    let ctx := WithValue (req_context r) (lit "request_id") requestID in
    next w (WithContext r ctx).

Definition getRequestID (r : Request Comment) : gostring :=
  match Context_Value (req_context r) (lit "request_id") with
  | Some requestID => requestID
  | None => []
  end.

(** [strings.HasPrefix] and [strings.TrimPrefix]. *)
Definition HasPrefix (s prefix : gostring) : bool :=
  (length prefix <=? length s)%nat
  && gostring_eqb (firstn (length prefix) s) prefix.

Definition TrimPrefix (s prefix : gostring) : gostring :=
  if HasPrefix s prefix then skipn (length prefix) s else s.

Definition getCommentsForNews (newsID : Z) (requestID : gostring)
  : Gw (slice Comment * error) :=
  let req := listRequest newsID requestID in
  resp <- Do req ;;
  match resp with
  | Failed err => ret (nil_slice, Err err)
  | Replied StatusCode Body =>
      if negb (StatusCode =? StatusOK) then
        ret (nil_slice,
             Err (lit "comment service returned status: " ++ Itoa StatusCode))
      else
        let '(comments, err) := decodeComments ds Body in
        if negb (is_nil err) then ret (nil_slice, err)
        else ret (comments, nil)
  end.

Definition newsDetailHandler (rt : Runtime) : Handler :=
  fun w r =>
    if negb (gostring_eqb (req_method r) MethodGet) then
      ret (Error (lit "Method not allowed") StatusMethodNotAllowed w)
    else
      let path := TrimPrefix (req_path r) (lit "/news/") in
      if gostring_eqb path [] then
        ret (Error (lit "News ID is required") StatusBadRequest w)
      else
        match Atoi path with
        | None => ret (Error (lit "Invalid news ID") StatusBadRequest w)
        | Some newsID =>
            let news :=
              mkNewsShortDetailed newsID
                (lit "News " ++ Itoa newsID)
                (lit "Content of news " ++ Itoa newsID)
                (time_Now rt) in
            res <- getCommentsForNews newsID (getRequestID r) ;;
            let '(comments, err) := res in
            let comments :=
              if is_nil err then comments else make_slice [] in
            let detailedNews := mkNewsFullDetailed news comments in
            let w := Header_Set (lit "Content-Type") (lit "application/json") w in
            ret (Encode (news_full_json detailedNews) w)
        end.

Definition validateCommentWithCensorService (text requestID : gostring)
  : Gw error :=
  let req := checkRequest text requestID in
  resp <- Do req ;;
  match resp with
  | Failed err => ret (Err err)
  | Replied StatusCode _ =>
      if StatusCode =? StatusBadRequest then
        ret (Err (lit "censor service rejected the comment"))
      else if negb (StatusCode =? StatusOK) then
        ret (Err (lit "censor service returned unexpected status: "
                  ++ Itoa StatusCode))
      else ret nil
  end.

Definition saveCommentToService (comment : Comment) (requestID : gostring)
  : Gw error :=
  let req := saveRequest comment requestID in
  resp <- Do req ;;
  match resp with
  | Failed err => ret (Err err)
  | Replied StatusCode _ =>
      if negb (StatusCode =? StatusOK) && negb (StatusCode =? StatusCreated) then
        ret (Err (lit "comment service returned status: " ++ Itoa StatusCode))
      else ret nil
  end.

Definition commentHandler : Handler :=
  fun w r =>
    if negb (gostring_eqb (req_method r) MethodPost) then
      ret (Error (lit "Method not allowed") StatusMethodNotAllowed w)
    else
      match req_body r with
      | None => ret (Error (lit "Invalid JSON") StatusBadRequest w)
      | Some comment =>
          let requestID := getRequestID r in
          err <- validateCommentWithCensorService (Text comment) requestID ;;
          if negb (is_nil err) then
            ret (Error (lit "Comment contains prohibited content")
                       StatusBadRequest w)
          else
            err <- saveCommentToService comment requestID ;;
            if negb (is_nil err) then
              ret (Error (lit "Failed to save comment")
                         StatusInternalServerError w)
            else
              let w := Header_Set (lit "Content-Type") (lit "application/json") w in
              ret (Encode (JObj [(lit "id", JInt 1);
                                 (lit "message",
                                  JStr (lit "Comment created successfully"))]) w)
      end.

(** The routes of [main] that call other services. *)
Definition serveNewsDetail (rt : Runtime) : Handler :=
  loggingMiddleware rt (newsDetailHandler rt).

Definition serveComment (rt : Runtime) : Handler :=
  loggingMiddleware rt commentHandler.

End Gateway.

Arguments ret {ds A} a.
Arguments bind {ds A B} m k.

End APIGateway.

(* ===================================================================== *)
(** * The three services wired together                                   *)
(* ===================================================================== *)

(** The deployment of the README: the gateway reaches the censor service
    on port 8082 and the comment service on port 8081. The wire between
    them is JSON; the decoders below read back exactly what the
    encoders of the other side write. The network in front of a service
    follows a plan, one entry per call. *)
Module System.
Import Go.

Inductive Fault : Type :=
| Deliver                (* the call reaches the service *)
| Timeout                (* [client.Do] returns an error *)
| Answer (code : Z).     (* something answers with this status instead *)

Definition Body : Type := list chunk.

Definition decode_check (payload : option json)
  : option CensorService.CheckRequest :=
  match payload with
  | Some (JObj [(k, JStr text)]) =>
      if gostring_eqb k (lit "text")
      then Some (CensorService.mkCheckRequest text) else None
  | _ => None
  end.

Definition decode_create (payload : option json)
  : option CommentService.CreateCommentRequest :=
  match payload with
  | Some (JObj [(k1, JInt n); (k2, p); (k3, JStr text)]) =>
      if gostring_eqb k1 (lit "news_id") && gostring_eqb k2 (lit "parent_id")
         && gostring_eqb k3 (lit "text")
      then match p with
           | JNull => Some (CommentService.mkCreateCommentRequest n None text)
           | JInt q => Some (CommentService.mkCreateCommentRequest n (Some q) text)
           | _ => None
           end
      else None
  | _ => None
  end.

Definition decode_comment (v : json) : option APIGateway.Comment :=
  match v with
  | JObj [(_, JInt i); (_, JInt n); (_, JStr text)] =>
      Some (APIGateway.mkComment i n None text)
  | JObj [(_, JInt i); (_, JInt n); (_, JInt p); (_, JStr text)] =>
      Some (APIGateway.mkComment i n (Some p) text)
  | _ => None
  end.

Fixpoint decode_all (items : list json) : option (list APIGateway.Comment) :=
  match items with
  | [] => Some []
  | v :: rest =>
      match decode_comment v, decode_all rest with
      | Some c, Some cs => Some (c :: cs)
      | _, _ => None
      end
  end.

Definition decodeComments (b : Body)
  : slice APIGateway.Comment * APIGateway.error :=
  match b with
  | [JsonValue JNull] => (nil_slice, APIGateway.nil)
  | [JsonValue (JArr items)] =>
      match decode_all items with
      | Some cs => (make_slice cs, APIGateway.nil)
      | None => (nil_slice, APIGateway.Err (lit "json: cannot unmarshal"))
      end
  | _ => (nil_slice, APIGateway.Err (lit "json: cannot unmarshal"))
  end.

Definition inbound {T} (c : APIGateway.Call) (payload : option T) : Request T :=
  mkRequest (APIGateway.call_method c) (APIGateway.call_path c)
            (APIGateway.call_query c) (APIGateway.call_header c) [] payload.

Definition reply_of (w : ResponseWriter) : APIGateway.Reply Body :=
  APIGateway.Replied (status (response_of w)) (body (response_of w)).

Definition censorService (c : APIGateway.Call) (plan : list Fault)
  : APIGateway.Reply Body * list Fault :=
  match plan with
  | Timeout :: rest => (APIGateway.Failed (lit "context deadline exceeded"), rest)
  | Answer code :: rest => (APIGateway.Replied code [], rest)
  | _ =>
      (reply_of (CensorService.checkHandler new_writer
                   (inbound c (decode_check (APIGateway.call_body c)))),
       tl plan)
  end.

Definition commentService (c : APIGateway.Call)
    (st : list Fault * CommentService.Store)
  : APIGateway.Reply Body * (list Fault * CommentService.Store) :=
  match fst st with
  | Timeout :: rest =>
      (APIGateway.Failed (lit "context deadline exceeded"), (rest, snd st))
  | Answer code :: rest => (APIGateway.Replied code [], (rest, snd st))
  | _ =>
      let '(w, store) :=
        CommentService.commentsHandler new_writer
          (inbound c (decode_create (APIGateway.call_body c))) (snd st) in
      (reply_of w, (tl (fst st), store))
  end.

Definition deployment : APIGateway.Downstream :=
  APIGateway.mkDownstream Body decodeComments
    (list Fault) (list Fault * CommentService.Store)
    censorService commentService.

Definition World : Type := APIGateway.World deployment.

Definition boot (censor_plan store_plan : list Fault) : World :=
  APIGateway.mkWorld (ds := deployment)
    censor_plan (store_plan, CommentService.init) [].

Definition serveComment (rt : APIGateway.Runtime)
    (r : Request APIGateway.Comment) (wd : World) : Response * World :=
  let '(w, wd') := APIGateway.serveComment deployment rt new_writer r wd in
  (response_of w, wd').

Definition serveNewsDetail (rt : APIGateway.Runtime)
    (r : Request APIGateway.Comment) (wd : World) : Response * World :=
  let '(w, wd') := APIGateway.serveNewsDetail deployment rt new_writer r wd in
  (response_of w, wd').

Definition the_store (wd : World) : CommentService.Store :=
  snd (APIGateway.store_state wd).

(** A client request to [POST /check]. *)
Definition post_check (text : gostring) : Request CensorService.CheckRequest :=
  mkRequest MethodPost (lit "/check") [] [] []
            (Some (CensorService.mkCheckRequest text)).

(** Requests to [POST /comments] and [GET /comments?news_id=...]. *)
Definition post_create (newsID : Z) (parent : option Z) (text : gostring)
  : Request CommentService.CreateCommentRequest :=
  mkRequest MethodPost (lit "/comments") [] [] []
            (Some (CommentService.mkCreateCommentRequest newsID parent text)).

Definition get_comments (news_id : gostring)
  : Request CommentService.CreateCommentRequest :=
  mkRequest MethodGet (lit "/comments") [(lit "news_id", news_id)] [] [] None.

(** A client request to [POST /comment] and to [GET /news/{id}]. *)
Definition post_comment (request_id : gostring) (newsID : Z) (text : gostring)
  : Request APIGateway.Comment :=
  mkRequest MethodPost (lit "/comment") []
            (if gostring_eqb request_id [] then []
             else [(lit "X-Request-ID", request_id)]) []
            (Some (APIGateway.mkComment 0 newsID None text)).

Definition get_news (request_id : gostring) (path : gostring)
  : Request APIGateway.Comment :=
  mkRequest MethodGet path []
            (if gostring_eqb request_id [] then []
             else [(lit "X-Request-ID", request_id)]) [] None.

Definition rt0 : APIGateway.Runtime :=
  APIGateway.mkRuntime 1700000000 (lit "6ba7b810-9dad-11d1-80b4-00c04fd430c8").

End System.

(* ===================================================================== *)
(** * Words of the specification                                          *)
(* ===================================================================== *)

(** The specification speaks of substrings and of letter case; these are
    its notions, written without looking at the code. *)
Module Spec.
Import Go.

(** [sub] occurs in [s] as a contiguous run of bytes. *)
Definition is_substring (sub s : gostring) : Prop :=
  exists pre post, s = pre ++ sub ++ post.

Definition ascii_upper (c : byte) : Prop := 65 <= byte_val c <= 90.

(** The same byte, or the two cases of one ASCII letter. *)
Definition same_ascii_letter (a b : byte) : Prop :=
  a = b
  \/ (ascii_upper a /\ byte_val b = byte_val a + 32)
  \/ (ascii_upper b /\ byte_val a = byte_val b + 32).

(** [v] is [w] with some of its ASCII letters in the other case. *)
Definition ascii_case_variant (v w : gostring) : Prop :=
  Forall2 same_ascii_letter v w.

(** Letter case beyond ASCII: the text is UTF-8, a letter is a code
    point, and Cyrillic letters have two cases as Latin ones do. *)
Definition continuation (c : byte) : bool :=
  (128 <=? byte_val c) && (byte_val c <? 192).

Fixpoint utf8_decode (s : gostring) : list Z :=
  match s with
  | [] => []
  | b0 :: rest =>
      let v0 := byte_val b0 in
      if v0 <? 128 then v0 :: utf8_decode rest
      else
        match rest with
        | b1 :: rest1 =>
            if (192 <=? v0) && (v0 <? 224) && continuation b1 then
              ((v0 - 192) * 64 + (byte_val b1 - 128)) :: utf8_decode rest1
            else
              match rest1 with
              | b2 :: rest2 =>
                  if (224 <=? v0) && (v0 <? 240) && continuation b1
                     && continuation b2 then
                    ((v0 - 224) * 4096 + (byte_val b1 - 128) * 64
                     + (byte_val b2 - 128)) :: utf8_decode rest2
                  else
                    match rest2 with
                    | b3 :: rest3 =>
                        if (240 <=? v0) && (v0 <? 248) && continuation b1
                           && continuation b2 && continuation b3 then
                          ((v0 - 240) * 262144 + (byte_val b1 - 128) * 4096
                           + (byte_val b2 - 128) * 64 + (byte_val b3 - 128))
                            :: utf8_decode rest3
                        else 65533 :: utf8_decode rest
                    | [] => 65533 :: utf8_decode rest
                    end
              | [] => 65533 :: utf8_decode rest
              end
        | [] => [65533]
        end
  end.

(** Lower case of a code point: A-Z, U+0410..U+042F and U+0400..U+040F. *)
Definition lower_rune (r : Z) : Z :=
  if (65 <=? r) && (r <=? 90) then r + 32
  else if (1040 <=? r) && (r <=? 1071) then r + 32
  else if (1024 <=? r) && (r <=? 1039) then r + 80
  else r.

(** The two texts are the same letters, whatever their case. *)
Definition same_letters (a b : gostring) : Prop :=
  map lower_rune (utf8_decode a) = map lower_rune (utf8_decode b).

(** ** The gateway's view of a downstream call *)

(** The correlation ID of a request: the [X-Request-ID] it carries, or
    the token generated for it when it carries none. *)
Definition correlation_id {T} (rt : APIGateway.Runtime) (r : Request T)
  : gostring :=
  match header_get (lit "X-Request-ID") (req_header r) with
  | [] => APIGateway.uuid_New rt
  | id => id
  end.

(** The ContentFilter call succeeded: a response came back, with 200. *)
Definition filter_accepted {B} (resp : APIGateway.Reply B) : bool :=
  match resp with
  | APIGateway.Failed _ => false
  | APIGateway.Replied code _ => code =? 200
  end.

(** The CommentStore create call succeeded: a response, with 200 or 201. *)
Definition store_accepted {B} (resp : APIGateway.Reply B) : bool :=
  match resp with
  | APIGateway.Failed _ => false
  | APIGateway.Replied code _ => (code =? 200) || (code =? 201)
  end.

(** The CommentStore list call succeeded: a response, with 200 and a body
    that decodes. *)
Definition list_fetched (ds : APIGateway.Downstream)
    (resp : APIGateway.Reply (APIGateway.RespBody ds)) : bool :=
  match resp with
  | APIGateway.Failed _ => false
  | APIGateway.Replied code b =>
      (code =? 200)
      && APIGateway.is_nil (snd (APIGateway.decodeComments ds b))
  end.

(** The comments the gateway shows: the decoded list when the list call
    succeeded, no comment at all when it failed. *)
Definition shown_comments (ds : APIGateway.Downstream)
    (resp : APIGateway.Reply (APIGateway.RespBody ds))
  : slice APIGateway.Comment :=
  match resp with
  | APIGateway.Failed _ => make_slice []
  | APIGateway.Replied _ b =>
      if list_fetched ds resp then fst (APIGateway.decodeComments ds b)
      else make_slice []
  end.

(** A call without its [X-Request-ID] header. *)
Definition without_id (c : APIGateway.Call) : APIGateway.Call :=
  APIGateway.mkCall (APIGateway.call_method c) (APIGateway.call_host c)
    (APIGateway.call_path c) (APIGateway.call_query c)
    (header_del (lit "X-Request-ID") (APIGateway.call_header c))
    (APIGateway.call_body c).

(** A service answers without looking at the correlation ID. *)
Definition ignores_id {B S} (service : APIGateway.Call -> S -> APIGateway.Reply B * S)
  : Prop :=
  forall c c' s, without_id c = without_id c' -> service c s = service c' s.

(** Two requests that differ at most in the [X-Request-ID] they carry. *)
Definition differ_only_in_id {T} (r1 r2 : Request T) : Prop :=
  req_method r1 = req_method r2
  /\ req_path r1 = req_path r2
  /\ req_query r1 = req_query r2
  /\ req_context r1 = req_context r2
  /\ req_body r1 = req_body r2
  /\ header_del (lit "X-Request-ID") (req_header r1)
     = header_del (lit "X-Request-ID") (req_header r2).

(** Two runs of a handler from the world [wd], with the correlation IDs
    [id1] and [id2]: the client sees the same response, the two services
    end in the same state, and the calls made are the same up to their
    [X-Request-ID], which in each run is the ID of that run. *)
Definition same_outcome {ds : APIGateway.Downstream} (id1 id2 : gostring)
    (wd : APIGateway.World ds)
    (res1 res2 : ResponseWriter * APIGateway.World ds) : Prop :=
  response_of (fst res1) = response_of (fst res2)
  /\ APIGateway.censor_state (snd res1) = APIGateway.censor_state (snd res2)
  /\ APIGateway.store_state (snd res1) = APIGateway.store_state (snd res2)
  /\ exists new1 new2,
       APIGateway.calls (snd res1) = APIGateway.calls wd ++ new1
       /\ APIGateway.calls (snd res2) = APIGateway.calls wd ++ new2
       /\ map without_id new1 = map without_id new2
       /\ Forall (fun c => header_get (lit "X-Request-ID")
                             (APIGateway.call_header c) = id1) new1
       /\ Forall (fun c => header_get (lit "X-Request-ID")
                             (APIGateway.call_header c) = id2) new2.

(** The mocked news item of [newsDetailHandler]. *)
Definition mock_news (rt : APIGateway.Runtime) (newsID : Z)
  : APIGateway.NewsShortDetailed :=
  APIGateway.mkNewsShortDetailed newsID
    (lit "News " ++ Itoa newsID) (lit "Content of news " ++ Itoa newsID)
    (APIGateway.time_Now rt).

End Spec.

(* ===================================================================== *)
(** * APIGateway: the news list                                           *)
(* ===================================================================== *)

(** [newsHandler] of api-gateway/main.go, the one route that calls no
    other service. *)
Module NewsFeed.
Import Go.

Record Pagination : Type := mkPagination {
  Page : Z;
  TotalPages : Z
}.

Record NewsResponse : Type := mkNewsResponse {
  News : slice APIGateway.NewsShortDetailed;
  Paging : Pagination
}.

Definition news_short_json (n : APIGateway.NewsShortDetailed) : json :=
  JObj [(lit "id", JInt (APIGateway.News_ID n));
        (lit "title", JStr (APIGateway.Title n));
        (lit "content", JStr (APIGateway.Content n));
        (lit "pub_time", JTime (APIGateway.PubTime n))].

Definition news_response_json (resp : NewsResponse) : json :=
  JObj [(lit "news", json_slice news_short_json (News resp));
        (lit "pagination",
         JObj [(lit "page", JInt (Page (Paging resp)));
               (lit "total_pages", JInt (TotalPages (Paging resp)))])].

(** [time.Hour], in nanoseconds; a time is counted in nanoseconds too,
    so that [t.Add(d)] is [t + d]. *)
Definition Hour : Z := 3600 * 1000000000.

(** [strings.Contains]: [substr] starts at some position of [s]. *)
Fixpoint Contains (s substr : gostring) : bool :=
  APIGateway.HasPrefix s substr
  || match s with
     | [] => false
     | _ :: s' => Contains s' substr
     end.

(** The page count computed from [len(news)], ten items to a page. [/]
    and [%] of Go truncate towards zero. *)
Definition totalPages (n : Z) : Z :=
  if n >? 10 then
    let totalPages := Z.quot n 10 + 1 in
    if Z.rem n 10 =? 0 then totalPages - 1 else totalPages
  else 1.

(** The mock data of [newsHandler]; [now1] and [now2] are the two
    readings of [time.Now()]. *)
Definition mock_items (now1 now2 : Z) : list APIGateway.NewsShortDetailed :=
  [APIGateway.mkNewsShortDetailed 1 (lit "First News")
     (lit "This is the content of the first news article")
     (now1 + (-24) * Hour);
   APIGateway.mkNewsShortDetailed 2 (lit "Second News")
     (lit "This is the content of the second news article")
     (now2 + (-12) * Hour)].

(** Every byte is below 0x80. *)
Definition ascii_only (s : gostring) : Prop :=
  Forall (fun c => byte_val c < 128) s.

Section Handler.

(** [strings.ToLower] maps every letter of Unicode; it is left open
    here. What the standard library fixes for it on ASCII text is stated
    where it is needed. *)
Variable ToLower : gostring -> gostring.

(** The search loop over the mocked items. *)
Fixpoint search_loop (news : list APIGateway.NewsShortDetailed)
    (searchQuery : gostring) (filtered : slice APIGateway.NewsShortDetailed)
  : slice APIGateway.NewsShortDetailed :=
  match news with
  | [] => filtered
  | n :: rest =>
      if Contains (ToLower (APIGateway.Title n)) (ToLower searchQuery)
      then search_loop rest searchQuery (append filtered n)
      else search_loop rest searchQuery filtered
  end.

Definition newsHandler {T} (now1 now2 : Z) (w : ResponseWriter)
    (r : Request T) : ResponseWriter :=
  if negb (gostring_eqb (req_method r) MethodGet) then
    Error (lit "Method not allowed") StatusMethodNotAllowed w
  else
    let pageStr := Query_Get r (lit "page") in
    let page :=
      if negb (gostring_eqb pageStr []) then
        match Atoi pageStr with
        | Some p => if p >? 0 then p else 1
        | None => 1
        end
      else 1 in
    let searchQuery := Query_Get r (lit "s") in
    let searchQuery :=
      if gostring_eqb searchQuery [] then Query_Get r (lit "search")
      else searchQuery in
    let news := make_slice (mock_items now1 now2) in
    let news :=
      if negb (gostring_eqb searchQuery []) then
        search_loop (to_list news) searchQuery nil_slice
      else news in
    let response :=
      mkNewsResponse news (mkPagination page (totalPages (len news))) in
    let w := Header_Set (lit "Content-Type") (lit "application/json") w in
    Encode (news_response_json response) w.

End Handler.

(** [GET /news] with the given query parameters. *)
Definition get_news_list (query : list (gostring * gostring)) : Request unit :=
  mkRequest MethodGet (lit "/news") query [] [] None.

End NewsFeed.

(* ===================================================================== *)
(** * Facts about the censor service                                      *)
(* ===================================================================== *)

Section CensorFacts.
Import Go CensorService Spec.

Lemma byte_val_range (c : byte) : 0 <= byte_val c < 256.
Proof. destruct c; vm_compute; split; congruence. Qed.

Lemma byte_val_inj (a b : byte) : byte_val a = byte_val b -> a = b.
Proof.
  unfold byte_val. intros H. apply N2Z.inj in H.
  apply (f_equal Byte.of_N) in H. rewrite !Byte.of_to_N in H. congruence.
Qed.

Lemma lower_byte_upper (c : byte) :
  ascii_upper c -> byte_val (lower_byte c) = byte_val c + 32.
Proof.
  unfold ascii_upper. destruct c; vm_compute; intros [H1 H2];
    try reflexivity; exfalso; (apply H1; reflexivity) || (apply H2; reflexivity).
Qed.

Lemma lower_byte_other (c : byte) : ~ ascii_upper c -> lower_byte c = c.
Proof.
  unfold ascii_upper. destruct c; try reflexivity;
    intros H; exfalso; apply H; vm_compute; split; congruence.
Qed.

Lemma lower_byte_idem (c : byte) : lower_byte (lower_byte c) = lower_byte c.
Proof. destruct c; reflexivity. Qed.

Lemma toLower_loop_map (s : gostring) :
  forall result, toLower_loop s result = result ++ map lower_byte s.
Proof.
  induction s as [|c s IH]; intros result; simpl.
  - now rewrite app_nil_r.
  - rewrite IH, <- app_assoc. reflexivity.
Qed.

Lemma toLower_map (s : gostring) : toLower s = map lower_byte s.
Proof. unfold toLower. now rewrite toLower_loop_map. Qed.

Lemma toLower_app (a b : gostring) : toLower (a ++ b) = toLower a ++ toLower b.
Proof. rewrite !toLower_map. apply map_app. Qed.

Lemma toLower_length (s : gostring) : length (toLower s) = length s.
Proof. rewrite toLower_map. apply length_map. Qed.

Lemma toLower_idem (s : gostring) : toLower (toLower s) = toLower s.
Proof.
  rewrite !toLower_map, map_map. apply map_ext. intros c. apply lower_byte_idem.
Qed.

(** ** The two loops of [contains] *)

Lemma byte_eqb_eq (a b : byte) : Byte.eqb a b = true <-> a = b.
Proof.
  split.
  - apply Byte.byte_dec_bl.
  - apply Byte.byte_dec_lb.
Qed.

(** The inner loop compares [substr[j..]] with [s[i+j..]]. *)
Lemma match_from_spec (s substr : gostring) (i : nat) :
  forall n j, (j + n = length substr)%nat ->
    (match_from s substr i j n = true <->
     forall k, (j <= k < length substr)%nat ->
       at_index s (i + k) = at_index substr k).
Proof.
  induction n as [|n IH]; intros j Hj; simpl.
  - split; [intros _ k Hk; lia | reflexivity].
  - destruct (Byte.eqb (at_index s (i + j)) (at_index substr j)) eqn:E.
    + apply byte_eqb_eq in E. rewrite IH by lia. split.
      * intros H k Hk. destruct (Nat.eq_dec k j) as [->|Hne]; [exact E|].
        apply H. lia.
      * intros H k Hk. apply H. lia.
    + split; [discriminate|]. intros H. exfalso.
      assert (E' : at_index s (i + j) = at_index substr j) by (apply H; lia).
      apply byte_eqb_eq in E'. congruence.
Qed.

(** A full match at [i] is an occurrence that starts at [i]. *)
Lemma match_at_occurrence (s substr : gostring) (i : nat) :
  (i + length substr <= length s)%nat ->
  (match_from s substr i 0 (length substr) = true <->
   firstn (length substr) (skipn i s) = substr).
Proof.
  intros Hlen. rewrite match_from_spec by lia. split.
  - intros H. apply nth_ext with (d := x00) (d' := x00).
    + rewrite length_firstn, length_skipn. lia.
    + intros k Hk. rewrite length_firstn, length_skipn in Hk.
      rewrite nth_firstn.
      destruct (k <? length substr)%nat eqn:E;
        [|apply Nat.ltb_ge in E; lia].
      rewrite nth_skipn. apply H. lia.
  - intros H k Hk. unfold at_index.
    transitivity (nth k (firstn (length substr) (skipn i s)) x00);
      [|now rewrite H].
    rewrite nth_firstn.
    destruct (k <? length substr)%nat eqn:E;
      [|apply Nat.ltb_ge in E; lia].
    now rewrite nth_skipn.
Qed.

Lemma scan_from_spec (s substr : gostring) :
  forall n i,
    (scan_from s substr i n = true <->
     exists i', (i <= i' < i + n)%nat
                /\ match_from s substr i' 0 (length substr) = true).
Proof.
  induction n as [|n IH]; intros i; simpl.
  - split; [discriminate | intros (i' & Hi & _); lia].
  - destruct (match_from s substr i 0 (length substr)) eqn:E.
    + split; [|reflexivity]. intros _. exists i. split; [lia | exact E].
    + rewrite IH. split.
      * intros (i' & Hi & Hm). exists i'. split; [lia | exact Hm].
      * intros (i' & Hi & Hm). exists i'. split; [|exact Hm].
        destruct (Nat.eq_dec i' i) as [->|Hne]; [congruence | lia].
Qed.

Lemma occurrence_split (s substr : gostring) (i : nat) :
  (i + length substr <= length s)%nat ->
  firstn (length substr) (skipn i s) = substr ->
  s = firstn i s ++ substr ++ skipn (length substr) (skipn i s).
Proof.
  intros Hlen H. rewrite <- H at 1. now rewrite !firstn_skipn.
Qed.

(** [contains] decides the substring relation. *)
Lemma contains_spec (s substr : gostring) :
  contains s substr = true <-> is_substring substr s.
Proof.
  unfold contains, is_substring.
  destruct (length substr =? 0)%nat eqn:E0.
  - apply Nat.eqb_eq in E0. apply length_zero_iff_nil in E0. subst substr.
    split; [|reflexivity]. intros _. exists [], s. reflexivity.
  - apply Nat.eqb_neq in E0.
    destruct (length s <? length substr)%nat eqn:E1.
    + apply Nat.ltb_lt in E1. split; [discriminate|].
      intros (pre & post & ->). rewrite !length_app in E1. lia.
    + apply Nat.ltb_ge in E1. rewrite scan_from_spec. split.
      * intros (i & Hi & Hm).
        apply match_at_occurrence in Hm; [|lia].
        eexists _, _. apply (occurrence_split s substr i); [lia | exact Hm].
      * intros (pre & post & ->). exists (length pre).
        rewrite !length_app. split; [lia|].
        apply match_at_occurrence; [rewrite !length_app; lia|].
        rewrite skipn_app, skipn_all, Nat.sub_diag. simpl.
        rewrite firstn_app, firstn_all, Nat.sub_diag. simpl.
        apply app_nil_r.
Qed.

Lemma containsIgnoreCase_spec (s substr : gostring) :
  containsIgnoreCase s substr = true
  <-> is_substring (toLower substr) (toLower s).
Proof. unfold containsIgnoreCase. apply contains_spec. Qed.

Lemma any_word_spec (text : gostring) (words : list gostring) :
  any_word text words = true
  <-> exists word, In word words /\ containsIgnoreCase text word = true.
Proof.
  induction words as [|w ws IH]; simpl.
  - split; [discriminate | intros (? & [] & _)].
  - destruct (containsIgnoreCase text w) eqn:E.
    + split; [|reflexivity]. intros _. exists w. auto.
    + rewrite IH. split.
      * intros (x & Hin & Hx). exists x. auto.
      * intros (x & [<-|Hin] & Hx); [congruence|]. exists x. auto.
Qed.

(** ** Letter case *)

Lemma lower_byte_val (c : byte) :
  byte_val (lower_byte c)
  = if (65 <=? byte_val c) && (byte_val c <=? 90) then byte_val c + 32
    else byte_val c.
Proof. destruct c; reflexivity. Qed.

Ltac split_range :=
  repeat match goal with
    | |- context [(?a <=? ?b) && (?c <=? ?d)] =>
        destruct (Z.leb_spec a b); destruct (Z.leb_spec c d); simpl
    | H : context [(?a <=? ?b) && (?c <=? ?d)] |- _ =>
        destruct (Z.leb_spec a b); destruct (Z.leb_spec c d); simpl in H
    end.

Lemma same_ascii_letter_lower (a b : byte) :
  same_ascii_letter a b <-> lower_byte a = lower_byte b.
Proof.
  unfold same_ascii_letter, ascii_upper. split.
  - intros H. apply byte_val_inj. rewrite !lower_byte_val.
    destruct H as [->|H]; [reflexivity|]. split_range; lia.
  - intros H. apply (f_equal byte_val) in H. rewrite !lower_byte_val in H.
    destruct (Z.eq_dec (byte_val a) (byte_val b)) as [E|E].
    + left. now apply byte_val_inj.
    + right. split_range; lia.
Qed.

Lemma ascii_case_variant_toLower (v w : gostring) :
  ascii_case_variant v w <-> toLower v = toLower w.
Proof.
  rewrite !toLower_map. unfold ascii_case_variant. split.
  - induction 1 as [|a b v w Hab _ IH]; simpl; [reflexivity|].
    apply same_ascii_letter_lower in Hab. congruence.
  - revert w. induction v as [|a v IH]; intros [|b w] H; simpl in H;
      try discriminate; constructor.
    + apply same_ascii_letter_lower. congruence.
    + apply IH. congruence.
Qed.

(** An occurrence in the lowered text comes from an occurrence, in the
    text, of the word in some ASCII case. *)
Lemma lowered_occurrence (text word : gostring) :
  is_substring (toLower word) (toLower text)
  <-> exists v, ascii_case_variant v word /\ is_substring v text.
Proof.
  split.
  - intros (pre & post & H). rewrite toLower_map in H at 1.
    apply map_eq_app in H. destruct H as (t1 & t23 & -> & _ & H).
    apply map_eq_app in H. destruct H as (t2 & t3 & -> & H & _).
    exists t2. split.
    + apply ascii_case_variant_toLower. now rewrite toLower_map.
    + now exists t1, t3.
  - intros (v & Hv & pre & post & ->).
    apply ascii_case_variant_toLower in Hv.
    exists (toLower pre), (toLower post).
    now rewrite !toLower_app, Hv.
Qed.

Lemma containsProhibitedWords_spec (text : gostring) :
  containsProhibitedWords text = true
  <-> exists word, In word prohibitedWords
                   /\ is_substring (toLower word) (toLower text).
Proof.
  unfold containsProhibitedWords. rewrite any_word_spec.
  split; intros (w & Hin & H); exists w; split; auto;
    now apply containsIgnoreCase_spec.
Qed.

(** ** The handler *)

Lemma checkHandler_verdict (r : Request CheckRequest) (text : gostring) :
  req_method r = MethodPost ->
  req_body r = Some (mkCheckRequest text) ->
  let resp := response_of (checkHandler new_writer r) in
  if containsProhibitedWords text then
    status resp = 400
    /\ body resp = [PlainText (lit "Text contains prohibited content")]
  else
    status resp = 200
    /\ body resp = [JsonValue (JObj [(lit "message",
                                      JStr (lit "Text passed censorship check"))])].
Proof.
  intros Hm Hb. unfold checkHandler. rewrite Hm, Hb. simpl.
  destruct (containsProhibitedWords text); split; reflexivity.
Qed.

End CensorFacts.

(* ===================================================================== *)
(** * ContentFilter: the verdict (C1, C10)                                *)
(* ===================================================================== *)

Section CensorClaims.
Import Go CensorService Spec.

(** C1: the filter is to reject a denylisted term in any letter case,
    and [containsIgnoreCase] is written to ignore case, lowering both the
    text and the term; the code misses this for the Cyrillic term.
    "йцукен" is on the denylist and is rejected with 400 as it stands,
    and "QWERTY" is rejected as well, but the text "ЙЦУКЕН", the same
    letters in capitals, is accepted with 200: [toLower] lowers the bytes
    'A'..'Z' only. *)
Lemma C1_uppercase_cyrillic_accepted :
  let text := lit "ЙЦУКЕН" in
  In (lit "йцукен") prohibitedWords
  /\ same_letters text (lit "йцукен")
  /\ is_substring text text
  /\ containsProhibitedWords text = false
  /\ status (response_of (checkHandler new_writer (System.post_check text))) = 200
  /\ status (response_of (checkHandler new_writer
                            (System.post_check (lit "йцукен")))) = 400
  /\ status (response_of (checkHandler new_writer
                            (System.post_check (lit "QWERTY")))) = 400.
Proof.
  cbv zeta.
  split; [right; left; reflexivity|].
  split; [vm_compute; reflexivity|].
  split; [exists [], []; reflexivity|].
  split; [vm_compute; reflexivity|].
  split; [vm_compute; reflexivity|].
  split; vm_compute; reflexivity.
Qed.

(** What the code computes, for every text: [/check] answers 400 exactly
    when, after [toLower] is applied to the text and to a denylisted
    term, the text contains the term as a contiguous run of bytes; so a
    text that contains a term with its ASCII letters in any case is
    rejected, and a text that contains no such variant of any term gets
    200 and the message "Text passed censorship check". *)
Lemma check_rejects_iff_lowered_term_occurs
    (r : Request CheckRequest) (text : gostring) :
  req_method r = MethodPost ->
  req_body r = Some (mkCheckRequest text) ->
  let resp := response_of (checkHandler new_writer r) in
  (status resp = 400
   <-> exists word, In word prohibitedWords
                    /\ is_substring (toLower word) (toLower text))
  /\ ((exists word v, In word prohibitedWords /\ ascii_case_variant v word
                      /\ is_substring v text)
      -> status resp = 400
         /\ body resp = [PlainText (lit "Text contains prohibited content")])
  /\ (~ (exists word v, In word prohibitedWords /\ ascii_case_variant v word
                        /\ is_substring v text)
      -> status resp = 200
         /\ body resp
            = [JsonValue (JObj [(lit "message",
                                 JStr (lit "Text passed censorship check"))])]).
Proof.
  intros Hm Hb resp.
  pose proof (checkHandler_verdict r text Hm Hb) as V. cbv zeta in V.
  fold resp in V.
  pose proof (containsProhibitedWords_spec text) as S.
  destruct (containsProhibitedWords text).
  - destruct V as [Vs Vb]. split; [|split].
    + split; [intros _; now apply S | intros _; exact Vs].
    + intros _. now split.
    + intros Hno. exfalso. apply Hno.
      destruct S as [S _]. destruct (S eq_refl) as (word & Hin & Hsub).
      apply lowered_occurrence in Hsub. destruct Hsub as (v & Hv & Hsub).
      now exists word, v.
  - destruct V as [Vs Vb]. split; [|split].
    + split; [rewrite Vs; discriminate|].
      intros H. apply S in H. discriminate.
    + intros (word & v & Hin & Hv & Hsub). exfalso.
      assert (H : false = true); [|discriminate].
      apply S. exists word. split; [exact Hin|].
      apply lowered_occurrence. now exists v.
    + intros _. now split.
Qed.

(** The example of the specification, [{"text":"QWERTY123"}]. *)
Lemma check_rejects_QWERTY123 :
  let r := System.post_check (lit "QWERTY123") in
  req_method r = MethodPost
  /\ req_body r = Some (mkCheckRequest (lit "QWERTY123"))
  /\ status (response_of (checkHandler new_writer r)) = 400.
Proof.
  cbv zeta. split; [reflexivity|]. split; [reflexivity|].
  apply (check_rejects_iff_lowered_term_occurs
           (System.post_check (lit "QWERTY123")) (lit "QWERTY123")
           eq_refl eq_refl).
  exists (lit "qwerty"), (lit "QWERTY"). split; [left; reflexivity|]. split.
  - apply ascii_case_variant_toLower. reflexivity.
  - exists [], (lit "123"). reflexivity.
Defined.

(** C10: [toLower] keeps the length, maps each byte in 'A'..'Z' to the
    byte 32 above it and leaves every other byte as it is (the bytes of
    multi-byte UTF-8 characters among them); so [containsIgnoreCase] is
    a substring test on the texts so lowered and does not tell two texts
    apart that differ in the case of ASCII letters only, and the verdict
    ignores case for ASCII letters alone: the denylisted Cyrillic term is
    rejected in lower case and accepted in capital letters. *)
Theorem C10_toLower_is_ascii_only :
  (forall s : gostring,
      length (toLower s) = length s
      /\ forall i, (i < length s)%nat ->
           let c := nth i s x00 in
           let c' := nth i (toLower s) x00 in
           (65 <= byte_val c <= 90 -> byte_val c' = byte_val c + 32)
           /\ (~ 65 <= byte_val c <= 90 -> c' = c)
           /\ (128 <= byte_val c -> c' = c))
  /\ (forall s substr : gostring,
         containsIgnoreCase s substr = true
         <-> is_substring (toLower substr) (toLower s))
  /\ (forall s s' substr substr' : gostring,
         ascii_case_variant s s' -> ascii_case_variant substr substr' ->
         containsIgnoreCase s substr = containsIgnoreCase s' substr')
  /\ (same_letters (lit "ЙЦУКЕН") (lit "йцукен")
      /\ toLower (lit "ЙЦУКЕН") = lit "ЙЦУКЕН"
      /\ containsProhibitedWords (lit "йцукен") = true
      /\ containsProhibitedWords (lit "ЙЦУКЕН") = false
      /\ status (response_of
                   (checkHandler new_writer (System.post_check (lit "ЙЦУКЕН"))))
         = 200).
Proof.
  split; [|split; [|split]].
  - intros s. split; [apply toLower_length|]. intros i Hi c c'.
    assert (Hc' : c' = lower_byte c).
    { unfold c', c. rewrite toLower_map.
      rewrite (nth_indep _ x00 (lower_byte x00))
        by (rewrite length_map; exact Hi).
      apply map_nth. }
    rewrite Hc'. split; [|split].
    + apply lower_byte_upper.
    + apply lower_byte_other.
    + intros H. apply lower_byte_other. unfold ascii_upper. lia.
  - apply containsIgnoreCase_spec.
  - intros s s' substr substr' Hs Hsub.
    apply ascii_case_variant_toLower in Hs, Hsub.
    unfold containsIgnoreCase. now rewrite Hs, Hsub.
  - split; [vm_compute; reflexivity|].
    split; [vm_compute; reflexivity|].
    split; [vm_compute; reflexivity|].
    split; vm_compute; reflexivity.
Qed.

End CensorClaims.

(* ===================================================================== *)
(** * Facts about decimal numerals                                        *)
(* ===================================================================== *)

Section DecimalFacts.
Import Go.

Lemma parse_digits_uint (d : Decimal.uint) :
  forall acc,
    parse_digits (lit (NilEmpty.string_of_uint d)) acc = Some (uint_value d acc).
Proof.
  induction d; intros acc; try reflexivity; apply IHd.
Qed.

Lemma uint_value_acc (d : Decimal.uint) :
  forall acc : positive,
    uint_value d (Z.pos acc) = Z.pos (Pos.of_uint_acc d acc).
Proof.
  induction d; intros acc; cbn [uint_value Pos.of_uint_acc];
    try reflexivity;
    match goal with
    | |- uint_value _ ?z = Z.pos (Pos.of_uint_acc _ ?p) =>
        replace z with (Z.pos p) by lia; apply IHd
    end.
Qed.

Lemma uint_value_of_uint (d : Decimal.uint) :
  uint_value d 0 = Z.of_N (Pos.of_uint d).
Proof.
  induction d; cbn [uint_value Pos.of_uint]; try reflexivity;
    try exact IHd; cbn [Z.mul Z.add Z.of_N]; apply uint_value_acc.
Qed.

Lemma uint_value_to_uint (p : positive) : uint_value (Pos.to_uint p) 0 = Z.pos p.
Proof. now rewrite uint_value_of_uint, DecimalPos.Unsigned.of_to. Qed.

Lemma lit_String (c : Ascii.ascii) (s : string) :
  lit (String c s) = Ascii.byte_of_ascii c :: lit s.
Proof. reflexivity. Qed.

(** Digits start with neither sign. *)
Lemma digits_head (d : Decimal.uint) :
  d <> Decimal.Nil ->
  exists c rest,
    lit (NilEmpty.string_of_uint d) = c :: rest
    /\ Byte.eqb c "-"%byte = false /\ Byte.eqb c "+"%byte = false.
Proof.
  intros Hd. destruct d; try congruence;
    cbn [NilEmpty.string_of_uint]; rewrite lit_String;
    eexists _, _; (split; [reflexivity|]); split; reflexivity.
Qed.

Lemma Atoi_digits (d : Decimal.uint) :
  d <> Decimal.Nil ->
  Atoi (lit (NilEmpty.string_of_uint d))
  = (if (int_min <=? uint_value d 0) && (uint_value d 0 <=? int_max)
     then Some (uint_value d 0) else None)
  /\ Atoi ("-"%byte :: lit (NilEmpty.string_of_uint d))
     = (if (int_min <=? - uint_value d 0) && (- uint_value d 0 <=? int_max)
        then Some (- uint_value d 0) else None).
Proof.
  intros Hd. pose proof (parse_digits_uint d 0) as P.
  destruct (digits_head d Hd) as (c & rest & Hlit & Hminus & Hplus).
  unfold Atoi. split.
  - rewrite Hlit, Hminus, Hplus. rewrite <- Hlit, P. reflexivity.
  - change (Byte.eqb "-" "-") with true. cbv iota.
    rewrite Hlit. rewrite <- Hlit, P. reflexivity.
Qed.

Lemma to_uint_not_Nil (p : positive) : Pos.to_uint p <> Decimal.Nil.
Proof.
  intros H. pose proof (DecimalPos.Unsigned.of_to p) as E.
  rewrite H in E. discriminate.
Qed.

(** What [%d] prints, [strconv.Atoi] reads back. *)
Lemma Atoi_Itoa (n : Z) : int_min <= n <= int_max -> Atoi (Itoa n) = Some n.
Proof.
  intros Hn. unfold Itoa. destruct n as [|p|p]; [reflexivity| |].
  - cbn [Z.to_int NilZero.string_of_int]. unfold NilZero.string_of_uint.
    destruct (Atoi_digits (Pos.to_uint p) (to_uint_not_Nil p)) as [A _].
    pose proof (to_uint_not_Nil p) as Hne.
    destruct (Pos.to_uint p) eqn:E; try congruence;
      rewrite A, <- E, uint_value_to_uint;
      destruct (Z.leb_spec int_min (Z.pos p)); try lia;
      destruct (Z.leb_spec (Z.pos p) int_max); try lia; reflexivity.
  - cbn [Z.to_int NilZero.string_of_int]. unfold NilZero.string_of_uint.
    destruct (Atoi_digits (Pos.to_uint p) (to_uint_not_Nil p)) as [_ A].
    pose proof (to_uint_not_Nil p) as Hne.
    destruct (Pos.to_uint p) eqn:E; try congruence;
      rewrite lit_String;
      change (Ascii.byte_of_ascii _ :: ?l) with ("-"%byte :: l);
      rewrite A, <- E, uint_value_to_uint;
      change (- Z.pos p) with (Z.neg p);
      destruct (Z.leb_spec int_min (Z.neg p)); try lia;
      destruct (Z.leb_spec (Z.neg p) int_max); try lia; reflexivity.
Qed.

(** The query the gateway sends for a news item is one the comment
    service reads back as that item's key. *)
Lemma listRequest_query_parses (newsID : Z) (requestID : gostring) :
  int_min <= newsID <= int_max ->
  Atoi (Query_Get
          (System.inbound (T := CommentService.CreateCommentRequest)
             (APIGateway.listRequest newsID requestID) None)
          (lit "news_id"))
  = Some newsID.
Proof. intros H. cbn. now apply Atoi_Itoa. Qed.

End DecimalFacts.

(* ===================================================================== *)
(** * Facts about the comment service                                     *)
(* ===================================================================== *)

Section CommentFacts.
Import Go CommentService.

Lemma wrap_int_small (n : Z) : int_min <= n <= int_max -> wrap_int n = n.
Proof.
  unfold wrap_int, int_min, int_max. intros H.
  rewrite Z.mod_small; lia.
Qed.

Lemma wrap_int_succ (n : Z) : wrap_int (wrap_int n + 1) = wrap_int (n + 1).
Proof.
  unfold wrap_int.
  replace ((n + 2 ^ 63) mod 2 ^ 64 - 2 ^ 63 + 1 + 2 ^ 63)
    with ((n + 2 ^ 63) mod 2 ^ 64 + 1) by lia.
  replace (n + 1 + 2 ^ 63) with ((n + 2 ^ 63) + 1) by lia.
  now rewrite Zplus_mod_idemp_l.
Qed.

Lemma to_list_append {A} (s : slice A) (x : A) :
  to_list (append s x) = to_list s ++ [x].
Proof. reflexivity. Qed.

Lemma ids_from_snoc (first : Z) (n : nat) :
  ids_from first (S n) = ids_from first n ++ [wrap_int (first + Z.of_nat n)].
Proof.
  revert first. induction n as [|n IH]; intros first.
  - simpl. now rewrite Z.add_0_r.
  - change (ids_from first (S (S n)))
      with (wrap_int first :: ids_from (first + 1) (S n)).
    rewrite IH.
    replace (first + 1 + Z.of_nat n) with (first + Z.of_nat (S n)) by lia.
    reflexivity.
Qed.

Lemma ids_from_small (first : Z) (n : nat) :
  int_min <= first -> first + Z.of_nat n <= int_max + 1 ->
  ids_from first n = map (fun i => first + Z.of_nat i) (seq 0 n).
Proof.
  revert first. induction n as [|n IH]; intros first Hlo Hhi; [reflexivity|].
  simpl. rewrite wrap_int_small by lia. rewrite Z.add_0_r. f_equal.
  rewrite IH by lia. rewrite <- seq_shift, map_map.
  apply map_ext. intros i. lia.
Qed.

Lemma counted_init : counted init.
Proof. split; reflexivity. Qed.

Lemma createCommentHandler_some (w : ResponseWriter)
    (r : Request CreateCommentRequest) (req : CreateCommentRequest) (st : Store) :
  req_body r = Some req ->
  createCommentHandler w r st
  = (Encode (JObj [(lit "id", JInt (nextID st))])
       (Header_Set (lit "Content-Type") (lit "application/json") w),
     mkStore (append (comments st)
                (mkComment (nextID st) (Req_NewsID req) (Req_ParentID req)
                           (Req_Text req)))
             (wrap_int (nextID st + 1))).
Proof. intros H. unfold createCommentHandler. now rewrite H. Qed.

Lemma createCommentHandler_counted (w : ResponseWriter)
    (r : Request CreateCommentRequest) (st : Store) :
  counted st -> counted (snd (createCommentHandler w r st)).
Proof.
  intros [Hids Hnext]. unfold createCommentHandler.
  destruct (req_body r) as [req|]; [|now split].
  unfold counted. cbn [snd comments nextID].
  rewrite to_list_append, length_app, map_app. cbn [length map ID].
  rewrite Nat.add_1_r. split.
  - now rewrite ids_from_snoc, Hids, Hnext.
  - rewrite Hnext, wrap_int_succ. f_equal. lia.
Qed.

Lemma commentsHandler_counted (w : ResponseWriter)
    (r : Request CreateCommentRequest) (st : Store) :
  counted st -> counted (snd (commentsHandler w r st)).
Proof.
  intros H. unfold commentsHandler.
  destruct (gostring_eqb (req_method r) MethodGet); [exact H|].
  destruct (gostring_eqb (req_method r) MethodPost); [|exact H].
  now apply createCommentHandler_counted.
Qed.

Lemma serve_all_counted (rs : list (Request CreateCommentRequest)) :
  forall st, counted st -> counted (snd (serve_all rs st)).
Proof.
  induction rs as [|r rs IH]; intros st H; [exact H|].
  simpl. pose proof (commentsHandler_counted new_writer r st H) as H1.
  destruct (commentsHandler new_writer r st) as [w st1].
  specialize (IH st1 H1). destruct (serve_all rs st1) as [out st2].
  exact IH.
Qed.

Lemma seq_ids_NoDup (n : nat) : NoDup (map Z.of_nat (seq 1 n)).
Proof.
  apply Finite.Injective_map_NoDup; [|apply seq_NoDup].
  intros a b H. lia.
Qed.

Lemma ids_from_1 (n : nat) :
  Z.of_nat n <= int_max -> ids_from 1 n = map Z.of_nat (seq 1 n).
Proof.
  intros H. rewrite ids_from_small by (unfold int_min, int_max in *; lia).
  rewrite <- seq_shift, map_map. apply map_ext. intros i. lia.
Qed.

(** ** The loop of [getCommentsHandler] *)

Lemma filter_loop_spec (cs : list Comment) (newsID : Z) :
  forall acc,
    to_list (filter_loop cs newsID acc)
    = to_list acc ++ filter (fun c => NewsID c =? newsID) cs.
Proof.
  induction cs as [|c cs IH]; intros acc; simpl.
  - now rewrite app_nil_r.
  - destruct (NewsID c =? newsID).
    + rewrite IH, to_list_append, <- app_assoc. reflexivity.
    + apply IH.
Qed.

(** Nothing matches: the slice is still [nil]. *)
Lemma filter_loop_nil (cs : list Comment) (newsID : Z) :
  filter (fun c => NewsID c =? newsID) cs = [] ->
  filter_loop cs newsID nil_slice = nil_slice.
Proof.
  induction cs as [|c cs IH]; simpl; [reflexivity|].
  destruct (NewsID c =? newsID); [discriminate | exact IH].
Qed.

Lemma filter_loop_make (cs : list Comment) (newsID : Z) :
  filter (fun c => NewsID c =? newsID) cs <> [] ->
  filter_loop cs newsID nil_slice
  = make_slice (filter (fun c => NewsID c =? newsID) cs).
Proof.
  intros H.
  pose proof (filter_loop_spec cs newsID nil_slice) as S. simpl in S.
  destruct (filter_loop cs newsID nil_slice) as [|l]; simpl in S.
  - congruence.
  - now rewrite S.
Qed.

Lemma Atoi_nonempty (s : gostring) (n : Z) : Atoi s = Some n -> s <> [].
Proof. intros H ->. discriminate. Qed.

Lemma gostring_eqb_nil (s : gostring) : gostring_eqb s [] = true <-> s = [].
Proof. destruct s; simpl; split; congruence. Qed.

Lemma getCommentsHandler_ok (r : Request CreateCommentRequest) (st : Store)
    (newsID : Z) :
  Atoi (Query_Get r (lit "news_id")) = Some newsID ->
  getCommentsHandler new_writer r st
  = Encode (json_slice comment_json
              (filter_loop (to_list (comments st)) newsID nil_slice))
      (Header_Set (lit "Content-Type") (lit "application/json") new_writer).
Proof.
  intros H. unfold getCommentsHandler.
  destruct (gostring_eqb (Query_Get r (lit "news_id")) []) eqn:E.
  - apply gostring_eqb_nil in E. now apply Atoi_nonempty in H.
  - now rewrite H.
Qed.

End CommentFacts.

(* ===================================================================== *)
(** * Goroutines of the comment service                                   *)
(* ===================================================================== *)

Section GoroutineFacts.
Import Go CommentService.

Lemma nth_error_set_nth_eq {A} (t : nat) (x : A) (l : list A) :
  (t < length l)%nat -> nth_error (set_nth t x l) t = Some x.
Proof.
  revert t. induction l as [|y l IH]; intros [|t] H; simpl in *;
    try lia; [reflexivity|]. apply IH. lia.
Qed.

Lemma nth_error_set_nth_neq {A} (t u : nat) (x : A) (l : list A) :
  t <> u -> nth_error (set_nth t x l) u = nth_error l u.
Proof.
  revert t u. induction l as [|y l IH]; intros [|t] [|u] H; simpl;
    try reflexivity; try congruence.
  apply IH. congruence.
Qed.

Lemma length_set_nth {A} (t : nat) (x : A) (l : list A) :
  length (set_nth t x l) = length l.
Proof.
  revert t. induction l as [|y l IH]; intros [|t]; simpl; try reflexivity.
  now rewrite IH.
Qed.

Lemma set_nth_set_nth {A} (t : nat) (x y : A) (l : list A) :
  set_nth t x (set_nth t y l) = set_nth t x l.
Proof.
  revert t. induction l as [|z l IH]; intros [|t]; simpl; try reflexivity.
  now rewrite IH.
Qed.

Lemma step_at_spec (t : nat) (gs : list goroutine) (st : Store) (g : goroutine) :
  nth_error gs t = Some g ->
  step_at t gs st = (set_nth t (fst (step g st)) gs, snd (step g st)).
Proof.
  revert t. induction gs as [|g0 gs IH]; intros [|t] H; simpl in *;
    try discriminate.
  - injection H as ->. now destruct (step g st).
  - rewrite (IH t H). reflexivity.
Qed.

Lemma run_app (s1 s2 : list nat) :
  forall gs st,
    run (s1 ++ s2) gs st = run s2 (fst (run s1 gs st)) (snd (run s1 gs st)).
Proof.
  induction s1 as [|t s1 IH]; intros gs st; [reflexivity|].
  simpl. destruct (step_at t gs st) as [gs' st']. apply IH.
Qed.

(** The three steps of one goroutine, run without interruption, are the
    handler of the source. *)
Lemma run_three (t : nat) (gs : list goroutine) (st : Store)
    (w : ResponseWriter) (r : Request CreateCommentRequest) :
  nth_error gs t = Some (Start w r) ->
  run [t; t; t] gs st
  = (set_nth t (Finished (fst (createCommentHandler w r st))) gs,
     snd (createCommentHandler w r st)).
Proof.
  intros H.
  assert (Hlt : (t < length gs)%nat) by (apply nth_error_Some; congruence).
  unfold run. rewrite (step_at_spec t gs st _ H).
  unfold createCommentHandler. cbn [step].
  destruct (req_body r) as [req|]; cbn [fst snd].
  - rewrite (step_at_spec t _ _ _ (nth_error_set_nth_eq t _ gs Hlt)).
    cbn [step fst snd]. rewrite set_nth_set_nth.
    assert (Hlt' : (t < length (set_nth t
              (Appended w (mkComment (nextID st) (Req_NewsID req)
                             (Req_ParentID req) (Req_Text req))) gs))%nat)
      by (now rewrite length_set_nth).
    rewrite (step_at_spec t _ _ _ (nth_error_set_nth_eq t _ _ Hlt)).
    cbn [step fst snd comments nextID]. now rewrite set_nth_set_nth.
  - rewrite (step_at_spec t _ _ _ (nth_error_set_nth_eq t _ gs Hlt)).
    cbn [step fst snd]. rewrite set_nth_set_nth.
    rewrite (step_at_spec t _ _ _ (nth_error_set_nth_eq t _ gs Hlt)).
    cbn [step fst snd]. now rewrite set_nth_set_nth.
Qed.

Lemma created_response (r : Request CreateCommentRequest) (st : Store) :
  req_body r <> None ->
  let w := fst (createCommentHandler new_writer r st) in
  status (response_of w) = 200
  /\ body (response_of w) = [JsonValue (JObj [(lit "id", JInt (nextID st))])]
  /\ length (to_list (comments (snd (createCommentHandler new_writer r st))))
     = S (length (to_list (comments st))).
Proof.
  intros H. unfold createCommentHandler.
  destruct (req_body r) as [req|]; [|congruence].
  cbn [fst snd comments]. rewrite to_list_append, length_app, Nat.add_1_r.
  repeat split.
Qed.

(** Calls served one after the other, in any order: the [i]-th call gets
    the [i]-th value of the counter. *)
Lemma run_serial (order : list nat) :
  forall (gs : list goroutine) (st : Store),
    NoDup order ->
    (forall t, In t order ->
       exists r, nth_error gs t = Some (Start new_writer r)
                 /\ req_body r <> None) ->
    counted st ->
    let k := length (to_list (comments st)) in
    let res := run (serial order) gs st in
    counted (snd res)
    /\ length (to_list (comments (snd res))) = (k + length order)%nat
    /\ (forall i t, nth_error order i = Some t ->
          exists w, nth_error (fst res) t = Some (Finished w)
                    /\ status (response_of w) = 200
                    /\ body (response_of w)
                       = [JsonValue
                            (JObj [(lit "id",
                                    JInt (wrap_int (1 + Z.of_nat (k + i))))])])
    /\ (forall t, ~ In t order -> nth_error (fst res) t = nth_error gs t).
Proof.
  induction order as [|t order IH]; intros gs st Hnd Hstart Hc k res.
  - subst res. cbn [serial flat_map run fst snd length].
    split; [exact Hc|]. split; [subst k; lia|].
    split; [intros [|i] t H; discriminate | reflexivity].
  - subst res. change (serial (t :: order)) with ([t; t; t] ++ serial order).
    rewrite run_app.
    destruct (Hstart t (or_introl eq_refl)) as (r & Hr & Hbody).
    rewrite (run_three t gs st new_writer r Hr). cbn [fst snd].
    destruct (created_response r st Hbody) as (Hs & Hb & Hl).
    set (w1 := fst (createCommentHandler new_writer r st)) in *.
    set (st1 := snd (createCommentHandler new_writer r st)) in *.
    assert (Hc1 : counted st1) by (now apply createCommentHandler_counted).
    inversion Hnd as [|? ? Hnotin Hnd']; subst.
    assert (Hlt : (t < length gs)%nat) by (apply nth_error_Some; congruence).
    specialize (IH (set_nth t (Finished w1) gs) st1 Hnd').
    destruct IH as (I1 & I2 & I3 & I4); [|exact Hc1|].
    { intros u Hu. destruct (Hstart u (or_intror Hu)) as (ru & Hru & Hbu).
      exists ru. split; [|exact Hbu].
      rewrite nth_error_set_nth_neq; [exact Hru|]. intros ->. contradiction. }
    split; [exact I1|]. split; [|split].
    + rewrite I2, Hl. simpl. lia.
    + intros [|i] u Hu; simpl in Hu.
      * injection Hu as <-. exists w1. split; [|split].
        -- rewrite (I4 t Hnotin). now apply nth_error_set_nth_eq.
        -- exact Hs.
        -- rewrite Hb. destruct Hc as [_ Hn]. rewrite Hn.
           fold k. now rewrite Nat.add_0_r.
      * destruct (I3 i u Hu) as (w & Hw1 & Hw2 & Hw3).
        exists w. split; [exact Hw1|]. split; [exact Hw2|].
        rewrite Hw3, Hl. fold k.
        replace (S k + i)%nat with (k + S i)%nat by lia. reflexivity.
    + intros u Hu. rewrite I4 by (intros Hin; apply Hu; now right).
      apply nth_error_set_nth_neq. intros ->. apply Hu. now left.
Qed.

Lemma all_finished (gs : list goroutine) :
  (forall t, (t < length gs)%nat ->
     exists w, nth_error gs t = Some (Finished w)) ->
  forallb finished gs = true.
Proof.
  intros H. apply forallb_forall. intros g Hin.
  apply In_nth_error in Hin. destruct Hin as (t & Ht).
  assert (Hlt : (t < length gs)%nat) by (apply nth_error_Some; congruence).
  destruct (H t Hlt) as (w & Hw). rewrite Hw in Ht. now injection Ht as <-.
Qed.

Lemma step_at_length (gs : list goroutine) (st : Store) :
  forall t, length (fst (step_at t gs st)) = length gs.
Proof.
  induction gs as [|g gs IH]; intros [|t]; simpl; try reflexivity.
  - now destruct (step g st).
  - specialize (IH t). destruct (step_at t gs st). simpl in *. now rewrite IH.
Qed.

Lemma run_length (schedule : list nat) :
  forall gs st, length (fst (run schedule gs st)) = length gs.
Proof.
  induction schedule as [|t s IH]; intros gs st; [reflexivity|].
  simpl. pose proof (step_at_length gs st t) as L.
  destruct (step_at t gs st) as [gs' st']. rewrite IH. exact L.
Qed.

End GoroutineFacts.

(* ===================================================================== *)
(** * CommentStore: create and listByNews (C3, C4, C9)                    *)
(* ===================================================================== *)

Section CommentClaims.
Import Go CommentService.

(** C3, as the specification states it, fails once creates overlap:
    [createCommentHandler] takes no lock. Three creates with payloads
    that deserialize, the first interrupted by the second after it read
    [nextID]: all three answer 200, the first two both return and store
    the identifier 1, the third gets 3, and 2 is never assigned. *)
Lemma C3_overlapping_creates_reuse_an_id :
  let gs := [Start new_writer (System.post_create 7 None (lit "a"));
             Start new_writer (System.post_create 7 None (lit "b"));
             Start new_writer (System.post_create 7 None (lit "c"))] in
  let res := run [0; 1; 1; 1; 0; 0; 2; 2; 2]%nat gs init in
  map (fun g => match g with
                | Finished w => (status (response_of w), body (response_of w))
                | _ => (0, [])
                end) (fst res)
  = [(200, [JsonValue (JObj [(lit "id", JInt 1)])]);
     (200, [JsonValue (JObj [(lit "id", JInt 1)])]);
     (200, [JsonValue (JObj [(lit "id", JInt 3)])])]
  /\ map ID (to_list (comments (snd res))) = [1; 1; 3]
  /\ map Text (to_list (comments (snd res))) = [lit "b"; lit "a"; lit "c"]
  /\ ~ NoDup (map ID (to_list (comments (snd res))))
  /\ map ID (to_list (comments (snd res))) <> map Z.of_nat (seq 1 3).
Proof.
  cbv zeta. split; [vm_compute; reflexivity|].
  split; [vm_compute; reflexivity|].
  split; [vm_compute; reflexivity|].
  split; [|vm_compute; discriminate].
  intros H. vm_compute in H. inversion H as [|x l Hnotin _]. apply Hnotin.
  now left.
Qed.

(** C3 (amended): as long as the requests of a process are served one
    after the other (no create overlaps another request), a create whose
    payload deserializes succeeds (status 200); with [k] comments stored
    so far it gives the new comment the identifier [k + 1] (1 for the
    first comment, one more on each create, so that the stored
    identifiers are 1, 2, ..., k + 1 without repetition), appends the
    comment after the stored ones and returns that identifier. [k] stays
    below the largest [int], as the length of a slice does. The states
    meant are those of [serve_all], which runs one handler to its end
    before the next. *)
Theorem C3_create_assigns_next_sequential_id
    (history : list (Request CreateCommentRequest))
    (r : Request CreateCommentRequest) (req : CreateCommentRequest) :
  req_method r = MethodPost ->
  req_body r = Some req ->
  let st := snd (serve_all history init) in
  let k := length (to_list (comments st)) in
  Z.of_nat k < int_max ->
  let w := fst (commentsHandler new_writer r st) in
  let st' := snd (commentsHandler new_writer r st) in
  status (response_of w) = 200
  /\ body (response_of w) = [JsonValue (JObj [(lit "id", JInt (Z.of_nat k + 1))])]
  /\ to_list (comments st')
     = to_list (comments st)
       ++ [mkComment (Z.of_nat k + 1) (Req_NewsID req) (Req_ParentID req)
                     (Req_Text req)]
  /\ map ID (to_list (comments st')) = map Z.of_nat (seq 1 (S k))
  /\ NoDup (map ID (to_list (comments st'))).
Proof.
  intros Hm Hb st k Hk w st'.
  assert (Hc : counted st) by (apply serve_all_counted, counted_init).
  assert (Hn : nextID st = Z.of_nat k + 1).
  { destruct Hc as [_ Hn]. fold k in Hn. rewrite Hn.
    rewrite wrap_int_small; unfold int_min, int_max in *; lia. }
  assert (E : commentsHandler new_writer r st
              = createCommentHandler new_writer r st).
  { unfold commentsHandler. rewrite Hm. reflexivity. }
  assert (Hc' : counted st').
  { subst st'. rewrite E. now apply createCommentHandler_counted. }
  assert (Hl : to_list (comments st')
               = to_list (comments st)
                 ++ [mkComment (Z.of_nat k + 1) (Req_NewsID req)
                               (Req_ParentID req) (Req_Text req)]).
  { subst st'. rewrite E, (createCommentHandler_some _ _ req _ Hb).
    cbn [snd comments]. now rewrite to_list_append, Hn. }
  assert (Hids : map ID (to_list (comments st')) = map Z.of_nat (seq 1 (S k))).
  { destruct Hc' as [Hids _]. rewrite Hids, Hl, length_app, Nat.add_1_r.
    apply ids_from_1. simpl length. lia. }
  split; [|split; [|split; [exact Hl|split; [exact Hids|]]]].
  - subst w. rewrite E, (createCommentHandler_some _ _ req _ Hb). reflexivity.
  - subst w. rewrite E, (createCommentHandler_some _ _ req _ Hb).
    cbn [fst]. now rewrite Hn.
  - rewrite Hids. apply seq_ids_NoDup.
Qed.

(** The theorem after one create and one list: the second create gets 2. *)
Lemma C3_witness_second_create :
  let history := [System.post_create 7 None (lit "first");
                  System.get_comments (lit "7")] in
  let r := System.post_create 8 (Some 1) (lit "second") in
  let st := snd (serve_all history init) in
  req_method r = MethodPost
  /\ Z.of_nat (length (to_list (comments st))) < int_max
  /\ body (response_of (fst (commentsHandler new_writer r st)))
     = [JsonValue (JObj [(lit "id", JInt 2)])]
  /\ map ID (to_list (comments (snd (commentsHandler new_writer r st))))
     = [1; 2].
Proof.
  cbv zeta. split; [reflexivity|]. split; [vm_compute; reflexivity|].
  pose proof (C3_create_assigns_next_sequential_id
                [System.post_create 7 None (lit "first");
                 System.get_comments (lit "7")]
                (System.post_create 8 (Some 1) (lit "second"))
                (mkCreateCommentRequest 8 (Some 1) (lit "second"))
                eq_refl eq_refl) as H.
  cbv zeta in H. destruct H as (_ & Hbody & _ & Hids & _).
  - vm_compute. reflexivity.
  - split; [exact Hbody | exact Hids].
Defined.

(** C4: for every news key [k] and every state of the store, listing by
    [k] answers 200 with exactly the stored comments whose [NewsID] is
    [k], in the order they are stored in (the order of creation), and
    leaves the store as it is; a stored comment with another key changes
    nothing in the answer; when no comment matches the answer is still
    200, with no comment in it (the nil slice, written as [null]). *)
Theorem C4_list_by_news_filters_in_insertion_order
    (r : Request CreateCommentRequest) (st : Store) (k : Z) :
  req_method r = MethodGet ->
  Atoi (Query_Get r (lit "news_id")) = Some k ->
  let w := fst (commentsHandler new_writer r st) in
  let matching := filter (fun c => NewsID c =? k) (to_list (comments st)) in
  snd (commentsHandler new_writer r st) = st
  /\ status (response_of w) = 200
  /\ (exists result : slice Comment,
         body (response_of w) = [JsonValue (json_slice comment_json result)]
         /\ to_list result = matching)
  /\ (forall c, In c matching <-> In c (to_list (comments st)) /\ NewsID c = k)
  /\ (forall before other after,
         to_list (comments st) = before ++ other :: after ->
         NewsID other <> k ->
         matching = filter (fun c => NewsID c =? k) (before ++ after))
  /\ (matching = [] -> body (response_of w) = [JsonValue JNull]).
Proof.
  intros Hm Hq w matching.
  assert (E : commentsHandler new_writer r st
              = (getCommentsHandler new_writer r st, st)).
  { unfold commentsHandler. rewrite Hm. reflexivity. }
  subst w. rewrite E. cbn [fst snd].
  rewrite (getCommentsHandler_ok r st k Hq).
  split; [reflexivity|]. split; [reflexivity|]. split; [|split; [|split]].
  - exists (filter_loop (to_list (comments st)) k nil_slice).
    split; [reflexivity|]. now rewrite filter_loop_spec.
  - intros c. subst matching. rewrite filter_In, Z.eqb_eq. tauto.
  - intros before other after Hst Hne. subst matching.
    rewrite Hst, !filter_app. cbn [filter].
    destruct (NewsID other =? k) eqn:Ek; [|reflexivity].
    apply Z.eqb_eq in Ek. contradiction.
  - intros Hnone. subst matching.
    now rewrite (filter_loop_nil _ _ Hnone).
Qed.

(** The theorem on a store with comments under two keys. *)
Lemma C4_witness_two_keys :
  let st := snd (serve_all [System.post_create 7 None (lit "a");
                            System.post_create 8 None (lit "b");
                            System.post_create 7 (Some 1) (lit "c")] init) in
  let r := System.get_comments (lit "7") in
  req_method r = MethodGet
  /\ Atoi (Query_Get r (lit "news_id")) = Some 7
  /\ status (response_of (fst (commentsHandler new_writer r st))) = 200
  /\ map ID (filter (fun c => NewsID c =? 7) (to_list (comments st))) = [1; 3].
Proof.
  cbv zeta. split; [reflexivity|]. split; [vm_compute; reflexivity|].
  split; [|vm_compute; reflexivity].
  apply (C4_list_by_news_filters_in_insertion_order
           (System.get_comments (lit "7"))
           (snd (serve_all [System.post_create 7 None (lit "a");
                            System.post_create 8 None (lit "b");
                            System.post_create 7 (Some 1) (lit "c")] init))
           7 eq_refl).
  vm_compute. reflexivity.
Defined.

(** C9, as the specification states it, fails: [createCommentHandler]
    takes no lock, and when two creates interleave statement by statement
    (both read [nextID] before either increments it) both comments are
    stored with the identifier 1. *)
Lemma C9_interleaved_creates_share_an_id :
  let gs := [Start new_writer (System.post_create 7 None (lit "a"));
             Start new_writer (System.post_create 7 None (lit "b"))] in
  let res := run [0; 1; 0; 1; 0; 1]%nat gs init in
  forallb finished (fst res) = true
  /\ map ID (to_list (comments (snd res))) = [1; 1]
  /\ map ID (to_list (comments (snd res))) <> [1; 2]
  /\ ~ NoDup (map ID (to_list (comments (snd res)))).
Proof.
  cbv zeta. split; [vm_compute; reflexivity|].
  split; [vm_compute; reflexivity|].
  split; [vm_compute; discriminate|].
  intros H. vm_compute in H. inversion H as [|x l Hnotin _]. apply Hnotin.
  now left.
Qed.

(** C9 (amended): for every N, when N creates are served one after the
    other, in whatever order (each call runs its three statements before
    the next call starts), every call ends with status 200, the call
    served in place i gets the identifier i, and the stored identifiers
    are exactly 1, ..., N, without duplicates and without gaps. *)
Theorem C9_serial_creates_number_1_to_N
    (rs : list (Request CreateCommentRequest)) (order : list nat) :
  Forall (fun r => req_body r <> None) rs ->
  Permutation order (seq 0 (length rs)) ->
  Z.of_nat (length rs) <= int_max ->
  let res := run (serial order) (map (Start new_writer) rs) init in
  forallb finished (fst res) = true
  /\ map ID (to_list (comments (snd res))) = map Z.of_nat (seq 1 (length rs))
  /\ NoDup (map ID (to_list (comments (snd res))))
  /\ (forall i t, nth_error order i = Some t ->
        exists w, nth_error (fst res) t = Some (Finished w)
                  /\ status (response_of w) = 200
                  /\ body (response_of w)
                     = [JsonValue (JObj [(lit "id", JInt (Z.of_nat i + 1))])]).
Proof.
  intros Hbody Hperm Hmax res.
  assert (Hnd : NoDup order).
  { apply (Permutation_NoDup (Permutation_sym Hperm)), seq_NoDup. }
  assert (Hlen : length order = length rs).
  { rewrite (Permutation_length Hperm). apply length_seq. }
  assert (Hin : forall t, In t order <-> (t < length rs)%nat).
  { intros t. split.
    - intros H. apply (Permutation_in _ Hperm) in H. apply in_seq in H. lia.
    - intros H. apply (Permutation_in _ (Permutation_sym Hperm)).
      apply in_seq. lia. }
  destruct (run_serial order (map (Start new_writer) rs) init Hnd)
    as (R1 & R2 & R3 & R4).
  { intros t Ht. apply Hin in Ht.
    destruct (nth_error rs t) as [r|] eqn:Hr;
      [|apply nth_error_None in Hr; lia].
    exists r. split.
    - now rewrite nth_error_map, Hr.
    - rewrite Forall_forall in Hbody. apply Hbody.
      eapply nth_error_In; eauto. }
  { apply counted_init. }
  fold res in R1, R2, R3, R4. cbn [init comments to_list length] in R2, R3.
  rewrite Nat.add_0_l in R2.
  assert (Hids : map ID (to_list (comments (snd res)))
                 = map Z.of_nat (seq 1 (length rs))).
  { destruct R1 as [Hids _]. rewrite Hids, R2, Hlen. now apply ids_from_1. }
  split; [|split; [exact Hids|split]].
  - apply all_finished. intros t Ht.
    unfold res in Ht. rewrite run_length, length_map in Ht.
    apply Hin in Ht. apply In_nth_error in Ht. destruct Ht as (i & Hi).
    destruct (R3 i t Hi) as (w & Hw & _). now exists w.
  - rewrite Hids. apply seq_ids_NoDup.
  - intros i t Hi. destruct (R3 i t Hi) as (w & Hw & Hs & Hb).
    exists w. split; [exact Hw|]. split; [exact Hs|].
    rewrite Hb.
    assert (Hi' : (i < length order)%nat) by (apply nth_error_Some; congruence).
    replace (1 + Z.of_nat (0 + i)) with (Z.of_nat i + 1) by lia.
    now rewrite wrap_int_small by (unfold int_min, int_max in *; lia).
Qed.

(** The theorem on three creates, served in the order 2, 0, 1. *)
Lemma C9_witness_three_serial_creates :
  let rs := [System.post_create 7 None (lit "a");
             System.post_create 8 None (lit "b");
             System.post_create 7 None (lit "c")] in
  let order := [2; 0; 1]%nat in
  Forall (fun r => req_body r <> None) rs
  /\ Permutation order (seq 0 (length rs))
  /\ Z.of_nat (length rs) <= int_max
  /\ map ID (to_list (comments
                        (snd (run (serial order) (map (Start new_writer) rs) init))))
     = [1; 2; 3].
Proof.
  cbv zeta.
  assert (Hb : Forall (fun r : Request CreateCommentRequest => req_body r <> None)
                 [System.post_create 7 None (lit "a");
                  System.post_create 8 None (lit "b");
                  System.post_create 7 None (lit "c")])
    by (repeat constructor; discriminate).
  assert (Hp : Permutation [2; 0; 1]%nat
                 (seq 0 (length [System.post_create 7 None (lit "a");
                                 System.post_create 8 None (lit "b");
                                 System.post_create 7 None (lit "c")]))).
  { cbn [length seq].
    apply Permutation_trans with (l' := [0; 2; 1]%nat);
      [apply perm_swap | apply perm_skip, perm_swap]. }
  assert (Hm : Z.of_nat (length [System.post_create 7 None (lit "a");
                                 System.post_create 8 None (lit "b");
                                 System.post_create 7 None (lit "c")])
               <= int_max) by (vm_compute; discriminate).
  split; [exact Hb|]. split; [exact Hp|]. split; [exact Hm|].
  exact (proj1 (proj2 (C9_serial_creates_number_1_to_N _ _ Hb Hp Hm))).
Defined.

End CommentClaims.

(* ===================================================================== *)
(** * Facts about the gateway                                             *)
(* ===================================================================== *)

Section GatewayFacts.
Import Go APIGateway Spec.

Variable ds : Downstream.

(** What [loggingMiddleware] leaves in the context is what the handlers
    read back. *)
Lemma getRequestID_WithValue (r : Request Comment) (id : gostring) :
  getRequestID (WithContext r (WithValue (req_context r) (lit "request_id") id))
  = id.
Proof. reflexivity. Qed.

Lemma loggingMiddleware_run (rt : Runtime) (next : Handler ds)
    (w : ResponseWriter) (r : Request Comment) :
  loggingMiddleware ds rt next w r
  = next w (WithContext r (WithValue (req_context r) (lit "request_id")
                             (correlation_id rt r))).
Proof.
  unfold loggingMiddleware, correlation_id.
  destruct (header_get (lit "X-Request-ID") (req_header r)); reflexivity.
Qed.

(** ** The three calls, one by one *)

Lemma validate_run (text id : gostring) (wd : World ds) :
  let req := checkRequest text id in
  let out := censorService ds req (censor_state wd) in
  is_nil (fst (validateCommentWithCensorService ds text id wd))
  = filter_accepted (fst out)
  /\ snd (validateCommentWithCensorService ds text id wd)
     = mkWorld (snd out) (store_state wd) (calls wd ++ [req]).
Proof.
  cbv zeta. unfold validateCommentWithCensorService, bind, Do.
  cbn [call_host checkRequest Call_Header_Set].
  destruct (censorService ds _ (censor_state wd)) as [[err|code b] cs];
    cbn [fst snd]; [split; reflexivity|].
  unfold filter_accepted, StatusBadRequest, StatusOK.
  destruct (Z.eqb_spec code 400) as [->|H4]; [split; reflexivity|].
  destruct (Z.eqb_spec code 200); split; reflexivity.
Qed.

Lemma save_run (comment : Comment) (id : gostring) (wd : World ds) :
  let req := saveRequest comment id in
  let out := commentService ds req (store_state wd) in
  is_nil (fst (saveCommentToService ds comment id wd))
  = store_accepted (fst out)
  /\ snd (saveCommentToService ds comment id wd)
     = mkWorld (censor_state wd) (snd out) (calls wd ++ [req]).
Proof.
  cbv zeta. unfold saveCommentToService, bind, Do.
  cbn [call_host saveRequest Call_Header_Set].
  destruct (commentService ds _ (store_state wd)) as [[err|code b] ss];
    cbn [fst snd]; [split; reflexivity|].
  unfold store_accepted, StatusCreated, StatusOK.
  destruct (Z.eqb_spec code 200); destruct (Z.eqb_spec code 201);
    split; reflexivity.
Qed.

Lemma list_run (newsID : Z) (id : gostring) (wd : World ds) :
  let req := listRequest newsID id in
  let out := commentService ds req (store_state wd) in
  let res := getCommentsForNews ds newsID id wd in
  is_nil (snd (fst res)) = list_fetched ds (fst out)
  /\ (list_fetched ds (fst out) = true ->
      exists code b, fst out = Replied code b
                     /\ fst (fst res) = fst (decodeComments ds b))
  /\ snd res = mkWorld (censor_state wd) (snd out) (calls wd ++ [req]).
Proof.
  cbv zeta. unfold getCommentsForNews, bind, Do.
  cbn [call_host listRequest Call_Header_Set].
  destruct (commentService ds _ (store_state wd)) as [[err|code b] ss];
    cbn [fst snd].
  - split; [reflexivity|]. split; [discriminate | reflexivity].
  - unfold list_fetched, StatusOK.
    destruct (Z.eqb_spec code 200) as [->|Hne]; cbn [negb andb].
    + destruct (decodeComments ds b) as [cs err] eqn:D. cbn [snd].
      destruct err as [|msg]; cbn [is_nil negb fst snd].
      * split; [reflexivity|]. split; [|reflexivity].
        intros _. exists 200, b. split; [reflexivity|]. now rewrite D.
      * split; [reflexivity|]. split; [discriminate | reflexivity].
    + split; [reflexivity|]. split; [discriminate | reflexivity].
Qed.

(** ** [commentHandler], by the outcome of its two calls *)

Lemma commentHandler_run (r : Request Comment) (comment : Comment)
    (wd : World ds) :
  req_method r = MethodPost ->
  req_body r = Some comment ->
  let id := getRequestID r in
  let check := checkRequest (Text comment) id in
  let out1 := censorService ds check (censor_state wd) in
  let save := saveRequest comment id in
  let out2 := commentService ds save (store_state wd) in
  commentHandler ds new_writer r wd
  = if filter_accepted (fst out1) then
      (if store_accepted (fst out2) then
         Encode (JObj [(lit "id", JInt 1);
                       (lit "message", JStr (lit "Comment created successfully"))])
           (Header_Set (lit "Content-Type") (lit "application/json") new_writer)
       else
         Error (lit "Failed to save comment") StatusInternalServerError new_writer,
       mkWorld (snd out1) (snd out2) ((calls wd ++ [check]) ++ [save]))
    else
      (Error (lit "Comment contains prohibited content") StatusBadRequest
         new_writer,
       mkWorld (snd out1) (store_state wd) (calls wd ++ [check])).
Proof.
  intros Hm Hb. cbv zeta. unfold commentHandler. rewrite Hm, Hb.
  cbn [negb gostring_eqb MethodPost]. change (gostring_eqb _ _) with true.
  cbn [negb]. unfold bind.
  destruct (validate_run (Text comment) (getRequestID r) wd) as [V1 V2].
  destruct (validateCommentWithCensorService ds (Text comment)
              (getRequestID r) wd) as [err1 wd1].
  cbn [fst snd] in V1, V2. rewrite <- V1. subst wd1.
  destruct (is_nil err1); cbn [negb]; [|reflexivity].
  match goal with
  | |- context [saveCommentToService ds comment ?i ?w] =>
      destruct (save_run comment i w) as [S1 S2];
      destruct (saveCommentToService ds comment i w) as [err2 wd2]
  end.
  cbn [fst snd store_state censor_state calls] in S1, S2.
  rewrite <- S1. subst wd2.
  destruct (is_nil err2); reflexivity.
Qed.

(** ** [newsDetailHandler], by the outcome of its call *)

Lemma gostring_eqb_refl (s : gostring) : gostring_eqb s s = true.
Proof.
  induction s as [|c s IH]; [reflexivity|]. simpl. rewrite IH.
  now destruct c.
Qed.

Lemma TrimPrefix_app (prefix s : gostring) : TrimPrefix (prefix ++ s) prefix = s.
Proof.
  unfold TrimPrefix, HasPrefix.
  rewrite length_app, firstn_app, Nat.sub_diag, firstn_all, firstn_O, app_nil_r.
  rewrite gostring_eqb_refl, skipn_app, skipn_all, Nat.sub_diag.
  destruct (Nat.leb_spec (length prefix) (length prefix + length s)); [|lia].
  reflexivity.
Qed.

Lemma newsDetailHandler_run (rt : Runtime) (r : Request Comment)
    (newsID : Z) (wd : World ds) :
  req_method r = MethodGet ->
  Atoi (TrimPrefix (req_path r) (lit "/news/")) = Some newsID ->
  let req := listRequest newsID (getRequestID r) in
  let out := commentService ds req (store_state wd) in
  newsDetailHandler ds rt new_writer r wd
  = (Encode (news_full_json
               (mkNewsFullDetailed (mock_news rt newsID)
                  (shown_comments ds (fst out))))
       (Header_Set (lit "Content-Type") (lit "application/json") new_writer),
     mkWorld (censor_state wd) (snd out) (calls wd ++ [req])).
Proof.
  intros Hm Ha. cbv zeta. unfold newsDetailHandler.
  rewrite Hm. change (gostring_eqb MethodGet MethodGet) with true.
  cbn [negb].
  destruct (gostring_eqb (TrimPrefix (req_path r) (lit "/news/")) []) eqn:E.
  { destruct (TrimPrefix (req_path r) (lit "/news/"));
      [discriminate Ha | discriminate E]. }
  rewrite Ha. unfold bind.
  destruct (list_run newsID (getRequestID r) wd) as (L1 & L2 & L3).
  destruct (getCommentsForNews ds newsID (getRequestID r) wd)
    as [[cs err] wd1].
  cbn [fst snd] in L1, L2, L3. rewrite L1. subst wd1.
  unfold shown_comments.
  destruct (list_fetched ds
              (fst (commentService ds (listRequest newsID (getRequestID r))
                      (store_state wd)))) eqn:F.
  - destruct (L2 eq_refl) as (code & b & Hout & Hcs).
    rewrite Hout, Hcs. reflexivity.
  - now destruct (fst (commentService ds
                         (listRequest newsID (getRequestID r))
                         (store_state wd))).
Qed.

Lemma gostring_eqb_eq (a b : gostring) : gostring_eqb a b = true <-> a = b.
Proof.
  revert b. induction a as [|x a IH]; intros [|y b]; simpl;
    try (split; congruence).
  rewrite andb_true_iff, byte_eqb_eq, IH. split.
  - intros [-> ->]. reflexivity.
  - intros H. injection H as -> ->. now split.
Qed.

(** ** Two runs that differ in the correlation ID *)

Lemma same_outcome_early (id1 id2 : gostring) (wd : World ds)
    (w : ResponseWriter) :
  same_outcome id1 id2 wd (w, wd) (w, wd).
Proof.
  unfold same_outcome. cbn [fst snd]. repeat split.
  exists [], []. rewrite app_nil_r. repeat split; constructor.
Qed.

Lemma commentHandler_same (r1 r2 : Request Comment) (wd : World ds) :
  ignores_id (censorService ds) ->
  ignores_id (commentService ds) ->
  req_method r1 = req_method r2 ->
  req_body r1 = req_body r2 ->
  same_outcome (getRequestID r1) (getRequestID r2) wd
    (commentHandler ds new_writer r1 wd) (commentHandler ds new_writer r2 wd).
Proof.
  intros Hcensor Hstore Hm Hb.
  destruct (gostring_eqb (req_method r1) MethodPost) eqn:EM.
  - apply gostring_eqb_eq in EM.
    destruct (req_body r1) as [comment|] eqn:EB.
    + assert (EM2 : req_method r2 = MethodPost) by congruence.
      assert (EB2 : req_body r2 = Some comment) by congruence.
      rewrite (commentHandler_run r1 comment wd EM EB).
      rewrite (commentHandler_run r2 comment wd EM2 EB2). cbv zeta.
      rewrite (Hcensor (checkRequest (Text comment) (getRequestID r1))
                 (checkRequest (Text comment) (getRequestID r2))
                 (censor_state wd) eq_refl).
      rewrite (Hstore (saveRequest comment (getRequestID r1))
                 (saveRequest comment (getRequestID r2))
                 (store_state wd) eq_refl).
      destruct (filter_accepted _);
        [destruct (store_accepted _)|]; unfold same_outcome;
        cbn [fst snd censor_state store_state calls].
      * repeat split.
        exists [checkRequest (Text comment) (getRequestID r1);
                saveRequest comment (getRequestID r1)],
               [checkRequest (Text comment) (getRequestID r2);
                saveRequest comment (getRequestID r2)].
        rewrite <- !app_assoc. repeat split; repeat constructor.
      * repeat split.
        exists [checkRequest (Text comment) (getRequestID r1);
                saveRequest comment (getRequestID r1)],
               [checkRequest (Text comment) (getRequestID r2);
                saveRequest comment (getRequestID r2)].
        rewrite <- !app_assoc. repeat split; repeat constructor.
      * repeat split.
        exists [checkRequest (Text comment) (getRequestID r1)],
               [checkRequest (Text comment) (getRequestID r2)].
        repeat split; repeat constructor.
    + unfold commentHandler. rewrite <- Hb, <- Hm, EB, EM. cbn [negb].
      apply same_outcome_early.
  - unfold commentHandler. rewrite <- Hm, EM. cbn [negb].
    apply same_outcome_early.
Qed.

Lemma newsDetailHandler_same (rt1 rt2 : Runtime) (r1 r2 : Request Comment)
    (wd : World ds) :
  ignores_id (commentService ds) ->
  time_Now rt1 = time_Now rt2 ->
  req_method r1 = req_method r2 ->
  req_path r1 = req_path r2 ->
  same_outcome (getRequestID r1) (getRequestID r2) wd
    (newsDetailHandler ds rt1 new_writer r1 wd)
    (newsDetailHandler ds rt2 new_writer r2 wd).
Proof.
  intros Hstore Ht Hm Hp.
  destruct (gostring_eqb (req_method r1) MethodGet) eqn:EM.
  - apply gostring_eqb_eq in EM.
    destruct (Atoi (TrimPrefix (req_path r1) (lit "/news/")))
      as [newsID|] eqn:EA.
    + assert (EM2 : req_method r2 = MethodGet) by congruence.
      assert (EA2 : Atoi (TrimPrefix (req_path r2) (lit "/news/"))
                    = Some newsID) by congruence.
      rewrite (newsDetailHandler_run rt1 r1 newsID wd EM EA).
      rewrite (newsDetailHandler_run rt2 r2 newsID wd EM2 EA2). cbv zeta.
      rewrite (Hstore (listRequest newsID (getRequestID r1))
                 (listRequest newsID (getRequestID r2))
                 (store_state wd) eq_refl).
      unfold mock_news. rewrite Ht.
      unfold same_outcome. cbn [fst snd censor_state store_state calls].
      repeat split.
      exists [listRequest newsID (getRequestID r1)],
             [listRequest newsID (getRequestID r2)].
      repeat split; repeat constructor.
    + unfold newsDetailHandler. rewrite <- Hp, <- Hm, EM, EA. cbn [negb].
      destruct (gostring_eqb (TrimPrefix (req_path r1) (lit "/news/")) []);
        apply same_outcome_early.
  - unfold newsDetailHandler. rewrite <- Hm, EM. cbn [negb].
    apply same_outcome_early.
Qed.

(** ** The deployment does not look at the correlation ID *)

Lemma System_censor_ignores_id : ignores_id System.censorService.
Proof.
  intros c c' plan H. unfold without_id in H.
  injection H as Hm Hh Hp Hq Hd Hb.
  unfold System.censorService, System.reply_of, CensorService.checkHandler,
    System.inbound.
  cbn [req_method req_body]. now rewrite Hm, Hb.
Qed.

Lemma System_store_ignores_id : ignores_id System.commentService.
Proof.
  intros c c' st H. unfold without_id in H.
  injection H as Hm Hh Hp Hq Hd Hb.
  unfold System.commentService, System.reply_of,
    CommentService.commentsHandler, CommentService.getCommentsHandler,
    CommentService.createCommentHandler, Query_Get, System.inbound.
  cbn [req_method req_body req_query]. now rewrite Hm, Hb, Hq.
Qed.

End GatewayFacts.

(* ===================================================================== *)
(** * Gateway: comment creation and news detail (C2, C5, C6, C7, C8)      *)
(* ===================================================================== *)

Section GatewayClaims.
Import Go APIGateway Spec.

(** The request a handler sees behind [loggingMiddleware]. *)
Lemma serveComment_run (ds : Downstream) (rt : Runtime) (r : Request Comment)
    (comment : Comment) (wd : World ds) :
  req_method r = MethodPost ->
  req_body r = Some comment ->
  let id := correlation_id rt r in
  let check := checkRequest (Text comment) id in
  let out1 := censorService ds check (censor_state wd) in
  let save := saveRequest comment id in
  let out2 := commentService ds save (store_state wd) in
  serveComment ds rt new_writer r wd
  = if filter_accepted (fst out1) then
      (if store_accepted (fst out2) then
         Encode (JObj [(lit "id", JInt 1);
                       (lit "message", JStr (lit "Comment created successfully"))])
           (Header_Set (lit "Content-Type") (lit "application/json") new_writer)
       else
         Error (lit "Failed to save comment") StatusInternalServerError new_writer,
       mkWorld (snd out1) (snd out2) ((calls wd ++ [check]) ++ [save]))
    else
      (Error (lit "Comment contains prohibited content") StatusBadRequest
         new_writer,
       mkWorld (snd out1) (store_state wd) (calls wd ++ [check])).
Proof.
  intros Hm Hb. cbv zeta. unfold serveComment.
  rewrite loggingMiddleware_run.
  exact (commentHandler_run ds
           (WithContext r (WithValue (req_context r) (lit "request_id")
                             (correlation_id rt r)))
           comment wd Hm Hb).
Qed.

(** C2: for every comment-creation request that decodes, when the
    ContentFilter call fails, whether [client.Do] returns an error or
    the response has any status other than 200, the gateway answers 400
    with the one message "Comment contains prohibited content" (the same
    response for each kind of failure), the only call it makes is the one
    to the filter, and the state of the comment service is untouched. *)
Theorem C2_filter_failure_is_400_and_store_not_called
    (ds : Downstream) (rt : Runtime) (r : Request Comment) (comment : Comment)
    (wd : World ds) :
  req_method r = MethodPost ->
  req_body r = Some comment ->
  let check := checkRequest (Text comment) (correlation_id rt r) in
  filter_accepted (fst (censorService ds check (censor_state wd))) = false ->
  let res := serveComment ds rt new_writer r wd in
  status (response_of (fst res)) = 400
  /\ body (response_of (fst res))
     = [PlainText (lit "Comment contains prohibited content")]
  /\ calls (snd res) = calls wd ++ [check]
  /\ call_host check = CensorHost
  /\ store_state (snd res) = store_state wd.
Proof.
  intros Hm Hb check Hfail res. subst res.
  rewrite (serveComment_run ds rt r comment wd Hm Hb). cbv zeta.
  fold check. rewrite Hfail. cbn [fst snd calls store_state].
  repeat split.
Qed.

(** The theorem on the deployment, with the filter timing out. *)
Lemma C2_witness_filter_timeout :
  let r := System.post_comment [] 7 (lit "hello") in
  let wd := System.boot [System.Timeout] [] in
  let res := serveComment System.deployment System.rt0 new_writer r wd in
  req_method r = MethodPost
  /\ filter_accepted
       (fst (censorService System.deployment
               (checkRequest (lit "hello") (correlation_id System.rt0 r))
               (censor_state wd))) = false
  /\ status (response_of (fst res)) = 400
  /\ System.the_store (snd res) = CommentService.init.
Proof.
  cbv zeta. split; [reflexivity|]. split; [reflexivity|].
  pose proof (C2_filter_failure_is_400_and_store_not_called
                System.deployment System.rt0
                (System.post_comment [] 7 (lit "hello"))
                (mkComment 0 7 None (lit "hello"))
                (System.boot [System.Timeout] []) eq_refl eq_refl eq_refl) as H.
  cbv zeta in H. destruct H as (Hs & _ & _ & _ & Hst).
  split; [exact Hs|]. unfold System.the_store. now rewrite Hst.
Defined.

(** C6: for every comment-creation request whose text the filter accepts,
    when the create call to the comment service fails (an error of
    [client.Do], or a status other than 200 and 201), the gateway answers
    500 "Failed to save comment"; it made exactly two calls, the check
    and one create: nothing is retried and nothing is undone. *)
Theorem C6_store_failure_is_500_without_retry
    (ds : Downstream) (rt : Runtime) (r : Request Comment) (comment : Comment)
    (wd : World ds) :
  req_method r = MethodPost ->
  req_body r = Some comment ->
  let check := checkRequest (Text comment) (correlation_id rt r) in
  let save := saveRequest comment (correlation_id rt r) in
  filter_accepted (fst (censorService ds check (censor_state wd))) = true ->
  store_accepted (fst (commentService ds save (store_state wd))) = false ->
  let res := serveComment ds rt new_writer r wd in
  status (response_of (fst res)) = 500
  /\ body (response_of (fst res)) = [PlainText (lit "Failed to save comment")]
  /\ calls (snd res) = calls wd ++ [check; save].
Proof.
  intros Hm Hb check save Hok Hfail res. subst res.
  rewrite (serveComment_run ds rt r comment wd Hm Hb). cbv zeta.
  fold check save. rewrite Hok, Hfail. cbn [fst snd calls].
  rewrite <- app_assoc. repeat split.
Qed.

(** The theorem on the deployment, with a 503 in front of the store. *)
Lemma C6_witness_store_unavailable :
  let r := System.post_comment [] 7 (lit "hello") in
  let wd := System.boot [] [System.Answer 503] in
  let res := serveComment System.deployment System.rt0 new_writer r wd in
  req_method r = MethodPost
  /\ status (response_of (fst res)) = 500
  /\ length (calls (snd res)) = 2%nat.
Proof.
  cbv zeta. split; [reflexivity|].
  pose proof (C6_store_failure_is_500_without_retry
                System.deployment System.rt0
                (System.post_comment [] 7 (lit "hello"))
                (mkComment 0 7 None (lit "hello"))
                (System.boot [] [System.Answer 503])
                eq_refl eq_refl) as H.
  cbv zeta in H. destruct H as (Hs & _ & Hc).
  - vm_compute. reflexivity.
  - reflexivity.
  - split; [exact Hs|]. now rewrite Hc.
Defined.

(** C7: for every comment creation that succeeds (the filter accepts and
    the comment service answers 200 or 201), the gateway answers 200 with
    the payload [{"id": 1, "message": "Comment created successfully"}],
    whatever the body of the comment service's response, which carries
    the identifier really assigned, says. *)
Theorem C7_success_payload_has_placeholder_id_1
    (ds : Downstream) (rt : Runtime) (r : Request Comment) (comment : Comment)
    (wd : World ds) :
  req_method r = MethodPost ->
  req_body r = Some comment ->
  let check := checkRequest (Text comment) (correlation_id rt r) in
  let save := saveRequest comment (correlation_id rt r) in
  filter_accepted (fst (censorService ds check (censor_state wd))) = true ->
  store_accepted (fst (commentService ds save (store_state wd))) = true ->
  let res := serveComment ds rt new_writer r wd in
  status (response_of (fst res)) = 200
  /\ body (response_of (fst res))
     = [JsonValue (JObj [(lit "id", JInt 1);
                         (lit "message",
                          JStr (lit "Comment created successfully"))])]
  /\ calls (snd res) = calls wd ++ [check; save].
Proof.
  intros Hm Hb check save Hok Hsaved res. subst res.
  rewrite (serveComment_run ds rt r comment wd Hm Hb). cbv zeta.
  fold check save. rewrite Hok, Hsaved. cbn [fst snd calls].
  rewrite <- app_assoc. repeat split.
Qed.

(** The theorem on the deployment, for the third comment: the store
    assigns 3, the gateway says 1. *)
Lemma C7_witness_third_comment :
  let wd1 := snd (System.serveComment System.rt0
                    (System.post_comment [] 7 (lit "one"))
                    (System.boot [] [])) in
  let wd2 := snd (System.serveComment System.rt0
                    (System.post_comment [] 7 (lit "two")) wd1) in
  let r := System.post_comment [] 8 (lit "three") in
  let res := serveComment System.deployment System.rt0 new_writer r wd2 in
  req_method r = MethodPost
  /\ body (response_of (fst res))
     = [JsonValue (JObj [(lit "id", JInt 1);
                         (lit "message",
                          JStr (lit "Comment created successfully"))])]
  /\ map CommentService.ID
       (to_list (CommentService.comments (System.the_store (snd res))))
     = [1; 2; 3].
Proof.
  cbv zeta. split; [reflexivity|]. split; [|vm_compute; reflexivity].
  apply (C7_success_payload_has_placeholder_id_1
           System.deployment System.rt0
           (System.post_comment [] 8 (lit "three"))
           (mkComment 0 8 None (lit "three"))
           (snd (System.serveComment System.rt0
                   (System.post_comment [] 7 (lit "two"))
                   (snd (System.serveComment System.rt0
                           (System.post_comment [] 7 (lit "one"))
                           (System.boot [] [])))))
           eq_refl eq_refl).
  - vm_compute. reflexivity.
  - vm_compute. reflexivity.
Defined.

(** C5: for every valid [GET /news/{id}], when the list call to the
    comment service fails ([client.Do] returns an error, the status is
    not 200, or the body does not decode), the gateway still answers 200
    with the news item and with [[]] as its "comments"; it made the one
    list call and nothing else. *)
Theorem C5_comment_fetch_failure_gives_200_with_empty_comments
    (ds : Downstream) (rt : Runtime) (r : Request Comment) (p : gostring)
    (newsID : Z) (wd : World ds) :
  req_method r = MethodGet ->
  req_path r = lit "/news/" ++ p ->
  Atoi p = Some newsID ->
  let fetch := listRequest newsID (correlation_id rt r) in
  list_fetched ds (fst (commentService ds fetch (store_state wd))) = false ->
  let res := serveNewsDetail ds rt new_writer r wd in
  status (response_of (fst res)) = 200
  /\ body (response_of (fst res))
     = [JsonValue (JObj [(lit "id", JInt newsID);
                         (lit "title", JStr (lit "News " ++ Itoa newsID));
                         (lit "content",
                          JStr (lit "Content of news " ++ Itoa newsID));
                         (lit "pub_time", JTime (time_Now rt));
                         (lit "comments", JArr [])])]
  /\ calls (snd res) = calls wd ++ [fetch].
Proof.
  intros Hm Hp Ha fetch Hfail res. subst res. unfold serveNewsDetail.
  rewrite loggingMiddleware_run.
  assert (Ha' : Atoi (TrimPrefix (req_path r) (lit "/news/")) = Some newsID)
    by (now rewrite Hp, TrimPrefix_app).
  rewrite (newsDetailHandler_run ds rt
             (WithContext r (WithValue (req_context r) (lit "request_id")
                               (correlation_id rt r)))
             newsID wd Hm Ha').
  cbv zeta. rewrite getRequestID_WithValue. fold fetch.
  assert (Hnone : shown_comments ds (fst (commentService ds fetch (store_state wd)))
                  = make_slice []).
  { unfold shown_comments. rewrite Hfail.
    now destruct (fst (commentService ds fetch (store_state wd))). }
  rewrite Hnone. cbn [fst snd calls]. repeat split.
Qed.

(** The theorem on the deployment, with the comment service timing out. *)
Lemma C5_witness_store_unreachable :
  let r := System.get_news [] (lit "/news/7") in
  let wd := System.boot [] [System.Timeout] in
  let res := serveNewsDetail System.deployment System.rt0 new_writer r wd in
  req_method r = MethodGet
  /\ req_path r = lit "/news/" ++ lit "7"
  /\ Atoi (lit "7") = Some 7
  /\ status (response_of (fst res)) = 200
  /\ length (calls (snd res)) = 1%nat.
Proof.
  cbv zeta. split; [reflexivity|]. split; [reflexivity|].
  split; [vm_compute; reflexivity|].
  pose proof (C5_comment_fetch_failure_gives_200_with_empty_comments
                System.deployment System.rt0
                (System.get_news [] (lit "/news/7")) (lit "7") 7
                (System.boot [] [System.Timeout]) eq_refl eq_refl) as H.
  cbv zeta in H. destruct H as (Hs & _ & Hc).
  - vm_compute. reflexivity.
  - reflexivity.
  - split; [exact Hs|]. now rewrite Hc.
Defined.

(** C8: take two runs of the comment-creation route, or of the
    news-detail route, from the same state of the world, on requests that
    differ at most in the [X-Request-ID] they carry (and in the token
    generated when they carry none), against services that answer
    without looking at that header. The client gets the same response,
    the two services end in the same state, the calls made are the same
    one by one once their [X-Request-ID] is set aside, and each call of a
    run carries the correlation ID of that run unchanged. *)
Theorem C8_correlation_id_does_not_affect_control_flow
    (ds : Downstream) (rt1 rt2 : Runtime) (r1 r2 : Request Comment)
    (wd : World ds) :
  ignores_id (censorService ds) ->
  ignores_id (commentService ds) ->
  time_Now rt1 = time_Now rt2 ->
  differ_only_in_id r1 r2 ->
  same_outcome (correlation_id rt1 r1) (correlation_id rt2 r2) wd
    (serveComment ds rt1 new_writer r1 wd)
    (serveComment ds rt2 new_writer r2 wd)
  /\ same_outcome (correlation_id rt1 r1) (correlation_id rt2 r2) wd
       (serveNewsDetail ds rt1 new_writer r1 wd)
       (serveNewsDetail ds rt2 new_writer r2 wd).
Proof.
  intros Hcensor Hstore Ht (Hm & Hp & Hq & Hc & Hb & Hh).
  unfold serveComment, serveNewsDetail. rewrite !loggingMiddleware_run.
  split.
  - apply (commentHandler_same ds
             (WithContext r1 (WithValue (req_context r1) (lit "request_id")
                                (correlation_id rt1 r1)))
             (WithContext r2 (WithValue (req_context r2) (lit "request_id")
                                (correlation_id rt2 r2)))
             wd Hcensor Hstore Hm Hb).
  - apply (newsDetailHandler_same ds rt1 rt2
             (WithContext r1 (WithValue (req_context r1) (lit "request_id")
                                (correlation_id rt1 r1)))
             (WithContext r2 (WithValue (req_context r2) (lit "request_id")
                                (correlation_id rt2 r2)))
             wd Hstore Ht Hm Hp).
Qed.

(** The theorem on the deployment: the same comment, once with the ID
    "abc" and once with none (so that one is generated). *)
Lemma C8_witness_given_and_generated_id :
  let r1 := System.post_comment (lit "abc") 7 (lit "hello") in
  let r2 := System.post_comment [] 7 (lit "hello") in
  let wd := System.boot [] [] in
  ignores_id (censorService System.deployment)
  /\ ignores_id (commentService System.deployment)
  /\ differ_only_in_id r1 r2
  /\ correlation_id System.rt0 r1 <> correlation_id System.rt0 r2
  /\ same_outcome (correlation_id System.rt0 r1) (correlation_id System.rt0 r2) wd
       (serveComment System.deployment System.rt0 new_writer r1 wd)
       (serveComment System.deployment System.rt0 new_writer r2 wd).
Proof.
  cbv zeta.
  assert (Hd : differ_only_in_id (System.post_comment (lit "abc") 7 (lit "hello"))
                 (System.post_comment [] 7 (lit "hello")))
    by (repeat split).
  split; [exact System_censor_ignores_id|].
  split; [exact System_store_ignores_id|].
  split; [exact Hd|].
  split; [vm_compute; discriminate|].
  exact (proj1 (C8_correlation_id_does_not_affect_control_flow
                  System.deployment System.rt0 System.rt0 _ _
                  (System.boot [] [])
                  System_censor_ignores_id System_store_ignores_id
                  eq_refl Hd)).
Defined.

End GatewayClaims.

(* ===================================================================== *)
(** * More about the censor service                                       *)
(* ===================================================================== *)

Section CensorExtras.
Import Go CensorService Spec.

(** X1: [contains s substr] is true exactly when [substr] occurs in [s]
    as a contiguous run of bytes; so the empty string is contained in
    every string, a string longer than [s] never is, and every string
    contains itself. *)
Theorem X1_contains_decides_substring (s substr : gostring) :
  (contains s substr = true <-> is_substring substr s)
  /\ contains s [] = true
  /\ ((length s < length substr)%nat -> contains s substr = false)
  /\ contains s s = true.
Proof.
  split; [apply contains_spec|]. split; [reflexivity|]. split.
  - intros Hlt. destruct (contains s substr) eqn:E; [|reflexivity].
    apply contains_spec in E. destruct E as (pre & post & ->).
    rewrite !length_app in Hlt. lia.
  - apply contains_spec. exists [], []. now rewrite app_nil_r.
Qed.

(** X2: lowering a text before it is checked changes nothing: [toLower]
    is idempotent, it works byte by byte (so it distributes over
    concatenation), and the verdict on [toLower text] is the verdict on
    [text]. *)
Theorem X2_verdict_unchanged_by_lowering (text other : gostring) :
  toLower (toLower text) = toLower text
  /\ toLower (text ++ other) = toLower text ++ toLower other
  /\ containsProhibitedWords (toLower text) = containsProhibitedWords text.
Proof.
  split; [apply toLower_idem|]. split; [apply toLower_app|].
  unfold containsProhibitedWords.
  induction prohibitedWords as [|w ws IH]; [reflexivity|].
  cbn [any_word]. rewrite IH.
  assert (E : containsIgnoreCase (toLower text) w = containsIgnoreCase text w)
    by (unfold containsIgnoreCase; now rewrite toLower_idem).
  now rewrite E.
Qed.

(** X3: a rejected text stays rejected inside any longer text. *)
Theorem X3_rejection_survives_embedding (pre text post : gostring) :
  containsProhibitedWords text = true ->
  containsProhibitedWords (pre ++ text ++ post) = true.
Proof.
  intros H. apply containsProhibitedWords_spec in H.
  destruct H as (word & Hin & p & q & Hsub).
  apply containsProhibitedWords_spec. exists word. split; [exact Hin|].
  exists (toLower pre ++ p), (q ++ toLower post).
  rewrite !toLower_app, Hsub, <- !app_assoc. reflexivity.
Qed.

Lemma X3_witness_embedded_qwerty :
  containsProhibitedWords (lit "Qwerty") = true
  /\ containsProhibitedWords (lit "say " ++ lit "Qwerty" ++ lit " twice") = true.
Proof.
  split; [vm_compute; reflexivity|].
  apply (X3_rejection_survives_embedding (lit "say ") (lit "Qwerty")
           (lit " twice")).
  vm_compute. reflexivity.
Defined.

(** X4: a text of fewer than six bytes is never rejected: no denylisted
    term is shorter than that. *)
Theorem X4_short_text_is_accepted (text : gostring) :
  (length text < 6)%nat -> containsProhibitedWords text = false.
Proof.
  intros Hlen. destruct (containsProhibitedWords text) eqn:E; [|reflexivity].
  apply containsProhibitedWords_spec in E.
  destruct E as (word & Hin & pre & post & Hsub).
  apply (f_equal (@length byte)) in Hsub.
  rewrite !length_app, !toLower_length in Hsub.
  assert (Hw : (6 <= length word)%nat).
  { destruct Hin as [<-|[<-|[<-|[]]]]; vm_compute; lia. }
  lia.
Qed.

Lemma X4_witness_five_bytes :
  (length (lit "QWERT") < 6)%nat /\ containsProhibitedWords (lit "QWERT") = false.
Proof.
  split; [vm_compute; lia|].
  apply (X4_short_text_is_accepted (lit "QWERT")). vm_compute. lia.
Defined.

(** X5: the answers of [/check] besides the verdict. A request that is
    not a POST gets 405 "Method not allowed", whatever its body; a POST
    whose body does not decode gets 400 "Invalid JSON"; and no request
    gets a status other than 200, 400 or 405. *)
Theorem X5_check_error_answers (r : Request CheckRequest) :
  let resp := response_of (checkHandler new_writer r) in
  (req_method r <> MethodPost ->
   status resp = 405 /\ body resp = [PlainText (lit "Method not allowed")])
  /\ (req_method r = MethodPost -> req_body r = None ->
      status resp = 400 /\ body resp = [PlainText (lit "Invalid JSON")])
  /\ (status resp = 200 \/ status resp = 400 \/ status resp = 405).
Proof.
  cbv zeta. unfold checkHandler.
  destruct (gostring_eqb (req_method r) MethodPost) eqn:EM; cbn [negb].
  - apply gostring_eqb_eq in EM. split; [intros H; contradiction|].
    destruct (req_body r) as [req|].
    + split; [intros _ H; discriminate|].
      destruct (containsProhibitedWords (Text req)); [right; left|left];
        reflexivity.
    + split; [intros _ _; split; reflexivity|]. right. left. reflexivity.
  - split; [intros _; split; reflexivity|].
    split; [|right; right; reflexivity].
    intros H. rewrite H in EM. discriminate.
Qed.

(** X6: the [Content-Type: application/json] of an accepted check never
    reaches the client: the handler sets it after [WriteHeader], when the
    header is already sent, and the response carries no header of the
    handler's at all. A rejection carries the [text/plain] of
    [http.Error]. *)
Theorem X6_accepted_check_has_no_json_content_type
    (r : Request CheckRequest) (text : gostring) :
  req_method r = MethodPost ->
  req_body r = Some (mkCheckRequest text) ->
  let resp := response_of (checkHandler new_writer r) in
  (containsProhibitedWords text = false -> header resp = [])
  /\ (containsProhibitedWords text = true ->
      header_get (lit "Content-Type") (header resp)
      = lit "text/plain; charset=utf-8").
Proof.
  intros Hm Hb. cbv zeta. unfold checkHandler. rewrite Hm, Hb.
  change (gostring_eqb MethodPost MethodPost) with true. cbn [negb Text].
  destruct (containsProhibitedWords text).
  - split; [discriminate | reflexivity].
  - split; [reflexivity | discriminate].
Qed.

Lemma X6_witness_hello :
  let r := System.post_check (lit "hello") in
  req_method r = MethodPost
  /\ header (response_of (checkHandler new_writer r)) = [].
Proof.
  cbv zeta. split; [reflexivity|].
  apply (X6_accepted_check_has_no_json_content_type
           (System.post_check (lit "hello")) (lit "hello") eq_refl eq_refl).
  vm_compute. reflexivity.
Defined.

End CensorExtras.

(* ===================================================================== *)
(** * More about the comment service                                      *)
(* ===================================================================== *)

From Stdlib Require Import Sorted.

Section CommentExtras.
Import Go CommentService.

Lemma commentsHandler_post (w : ResponseWriter)
    (r : Request CreateCommentRequest) (st : Store) :
  req_method r = MethodPost ->
  commentsHandler w r st = createCommentHandler w r st.
Proof. intros Hm. unfold commentsHandler. now rewrite Hm. Qed.

Lemma commentsHandler_get (w : ResponseWriter)
    (r : Request CreateCommentRequest) (st : Store) :
  req_method r = MethodGet ->
  commentsHandler w r st = (getCommentsHandler w r st, st).
Proof. intros Hm. unfold commentsHandler. now rewrite Hm. Qed.


(** X8: the error answers of [/comments]. A method other than GET and
    POST gets 405; a GET without [news_id] (or with an empty one) gets
    400 "news_id parameter is required"; a GET whose [news_id] is not a
    decimal [int] gets 400 "Invalid news_id parameter"; a POST whose body
    does not decode gets 400 "Invalid JSON". *)
Theorem X8_comments_error_answers (r : Request CreateCommentRequest)
    (st : Store) :
  let resp := response_of (fst (commentsHandler new_writer r st)) in
  (req_method r <> MethodGet -> req_method r <> MethodPost ->
   status resp = 405 /\ body resp = [PlainText (lit "Method not allowed")])
  /\ (req_method r = MethodGet -> Query_Get r (lit "news_id") = [] ->
      status resp = 400
      /\ body resp = [PlainText (lit "news_id parameter is required")])
  /\ (req_method r = MethodGet -> Query_Get r (lit "news_id") <> [] ->
      Atoi (Query_Get r (lit "news_id")) = None ->
      status resp = 400
      /\ body resp = [PlainText (lit "Invalid news_id parameter")])
  /\ (req_method r = MethodPost -> req_body r = None ->
      status resp = 400 /\ body resp = [PlainText (lit "Invalid JSON")]).
Proof.
  cbv zeta. split; [|split; [|split]].
  - intros Hg Hp. unfold commentsHandler.
    destruct (gostring_eqb (req_method r) MethodGet) eqn:EG;
      [apply gostring_eqb_eq in EG; contradiction|].
    destruct (gostring_eqb (req_method r) MethodPost) eqn:EP;
      [apply gostring_eqb_eq in EP; contradiction|].
    split; reflexivity.
  - intros Hm Hq. rewrite (commentsHandler_get _ _ _ Hm).
    unfold getCommentsHandler. rewrite Hq. split; reflexivity.
  - intros Hm Hq Ha. rewrite (commentsHandler_get _ _ _ Hm).
    unfold getCommentsHandler. rewrite Ha.
    destruct (gostring_eqb (Query_Get r (lit "news_id")) []) eqn:E;
      [apply gostring_eqb_nil in E; contradiction|].
    split; reflexivity.
  - intros Hm Hb. rewrite (commentsHandler_post _ _ _ Hm).
    unfold createCommentHandler. rewrite Hb. split; reflexivity.
Qed.



Lemma sorted_ids_filter (f : Comment -> bool) (cs : list Comment) :
  StronglySorted Z.lt (map ID cs) ->
  StronglySorted Z.lt (map ID (filter f cs)).
Proof.
  induction cs as [|c cs IH]; intros H; [constructor|].
  cbn [map] in H. inversion H as [|x l Hs Hall]; subst.
  cbn [filter]. destruct (f c); [|now apply IH].
  cbn [map]. constructor; [now apply IH|].
  rewrite Forall_forall in *. intros i Hi. apply Hall.
  apply in_map_iff in Hi. destruct Hi as (c' & <- & Hc').
  apply filter_In in Hc'. apply in_map. tauto.
Qed.

Lemma sorted_seq_ids (first n : nat) :
  StronglySorted Z.lt (map Z.of_nat (seq first n)).
Proof.
  revert first. induction n as [|n IH]; intros first; [constructor|].
  cbn [seq map]. constructor; [apply IH|].
  rewrite Forall_forall. intros i Hi. apply in_map_iff in Hi.
  destruct Hi as (j & <- & Hj). apply in_seq in Hj. lia.
Qed.

(** X10: when the requests so far were served one after the other (no
    create overlapped another request; these are the states of
    [serve_all]), a list answers with comments whose identifiers
    increase strictly from one comment to the next: the answer is sorted
    by identifier, has no comment twice, and every identifier in it lies
    between 1 and the number of stored comments. Creates that overlap
    can break this, as they can store one identifier twice. *)
Theorem X10_listing_is_sorted_by_id
    (history : list (Request CreateCommentRequest))
    (get : Request CreateCommentRequest) (k : Z) :
  req_method get = MethodGet ->
  Atoi (Query_Get get (lit "news_id")) = Some k ->
  let st := snd (serve_all history init) in
  Z.of_nat (length (to_list (comments st))) <= int_max ->
  exists result : slice Comment,
    body (response_of (fst (commentsHandler new_writer get st)))
    = [JsonValue (json_slice comment_json result)]
    /\ StronglySorted Z.lt (map ID (to_list result))
    /\ NoDup (to_list result)
    /\ Forall (fun c => 1 <= ID c <= Z.of_nat (length (to_list (comments st))))
         (to_list result).
Proof.
  intros Hm Hq st Hmax.
  assert (Hc : counted st) by (apply serve_all_counted, counted_init).
  destruct Hc as [Hids _]. rewrite (ids_from_1 _ Hmax) in Hids.
  rewrite (commentsHandler_get _ _ _ Hm). cbn [fst].
  rewrite (getCommentsHandler_ok _ _ k Hq).
  eexists. split; [reflexivity|]. rewrite filter_loop_spec. cbn [to_list app].
  assert (Hs : StronglySorted Z.lt
                 (map ID (filter (fun c => NewsID c =? k) (to_list (comments st))))).
  { apply sorted_ids_filter. rewrite Hids. apply sorted_seq_ids. }
  split; [exact Hs|]. split.
  - apply (NoDup_map_inv ID).
    clear - Hs. induction Hs as [|x l _ IH Hall]; constructor; [|exact IH].
    intros Hin. rewrite Forall_forall in Hall. specialize (Hall x Hin). lia.
  - rewrite Forall_forall. intros c Hc. apply filter_In in Hc.
    destruct Hc as [Hc _]. apply (in_map ID) in Hc. rewrite Hids in Hc.
    apply in_map_iff in Hc. destruct Hc as (j & <- & Hj).
    apply in_seq in Hj. lia.
Qed.

Lemma X10_witness_three_comments :
  let history := [System.post_create 7 None (lit "a");
                  System.post_create 8 None (lit "b");
                  System.post_create 7 None (lit "c")] in
  let get := System.get_comments (lit "7") in
  let st := snd (serve_all history init) in
  req_method get = MethodGet
  /\ Atoi (Query_Get get (lit "news_id")) = Some 7
  /\ Z.of_nat (length (to_list (comments st))) <= int_max
  /\ exists result : slice Comment,
       body (response_of (fst (commentsHandler new_writer get st)))
       = [JsonValue (json_slice comment_json result)]
       /\ StronglySorted Z.lt (map ID (to_list result)).
Proof.
  cbv zeta. split; [reflexivity|]. split; [vm_compute; reflexivity|].
  split; [vm_compute; discriminate|].
  destruct (X10_listing_is_sorted_by_id
              [System.post_create 7 None (lit "a");
               System.post_create 8 None (lit "b");
               System.post_create 7 None (lit "c")]
              (System.get_comments (lit "7")) 7 eq_refl)
    as (result & Hb & Hs & _).
  - vm_compute. reflexivity.
  - vm_compute. discriminate.
  - exists result. split; [exact Hb | exact Hs].
Defined.

(** X11: the list request of the gateway, as the comment service reads
    it. For every news key that is an [int], the query [news_id=%d] the
    gateway builds is parsed back by [strconv.Atoi] to that key (a
    negative key included), and the comment service answers 200 with the
    stored comments of exactly that key. *)
Theorem X11_gateway_list_request_is_understood
    (newsID : Z) (requestID : gostring) (st : Store) :
  int_min <= newsID <= int_max ->
  let r := System.inbound (T := CreateCommentRequest)
             (APIGateway.listRequest newsID requestID) None in
  Atoi (Query_Get r (lit "news_id")) = Some newsID
  /\ status (response_of (fst (commentsHandler new_writer r st))) = 200
  /\ exists result : slice Comment,
       body (response_of (fst (commentsHandler new_writer r st)))
       = [JsonValue (json_slice comment_json result)]
       /\ to_list result
          = filter (fun c => NewsID c =? newsID) (to_list (comments st)).
Proof.
  intros Hrange r.
  assert (Hq : Atoi (Query_Get r (lit "news_id")) = Some newsID)
    by (now apply listRequest_query_parses).
  split; [exact Hq|].
  assert (Hm : req_method r = MethodGet) by reflexivity.
  rewrite (commentsHandler_get _ _ _ Hm). cbn [fst].
  rewrite (getCommentsHandler_ok _ _ newsID Hq).
  split; [reflexivity|]. eexists. split; [reflexivity|].
  now rewrite filter_loop_spec.
Qed.

Lemma X11_witness_negative_key :
  int_min <= -5 <= int_max
  /\ APIGateway.call_query (APIGateway.listRequest (-5) (lit "abc"))
     = [(lit "news_id", lit "-5")]
  /\ Atoi (lit "-5") = Some (-5).
Proof.
  assert (H : int_min <= -5 <= int_max) by (vm_compute; split; discriminate).
  split; [exact H|]. split; [vm_compute; reflexivity|].
  exact (proj1 (X11_gateway_list_request_is_understood (-5) (lit "abc") init H)).
Defined.

End CommentExtras.

(* ===================================================================== *)
(** * More about the gateway                                              *)
(* ===================================================================== *)

Section GatewayExtras.
Import Go APIGateway Spec.

Lemma serveComment_not_post (ds : Downstream) (rt : Runtime)
    (r : Request Comment) (wd : World ds) :
  req_method r <> MethodPost ->
  serveComment ds rt new_writer r wd
  = (Error (lit "Method not allowed") StatusMethodNotAllowed new_writer, wd).
Proof.
  intros Hm. unfold serveComment. rewrite loggingMiddleware_run.
  unfold commentHandler. cbn [req_method WithContext].
  destruct (gostring_eqb (req_method r) MethodPost) eqn:E;
    [apply gostring_eqb_eq in E; contradiction|].
  reflexivity.
Qed.

Lemma serveComment_bad_body (ds : Downstream) (rt : Runtime)
    (r : Request Comment) (wd : World ds) :
  req_method r = MethodPost ->
  req_body r = None ->
  serveComment ds rt new_writer r wd
  = (Error (lit "Invalid JSON") StatusBadRequest new_writer, wd).
Proof.
  intros Hm Hb. unfold serveComment. rewrite loggingMiddleware_run.
  unfold commentHandler. cbn [req_method req_body WithContext].
  now rewrite Hm, Hb.
Qed.

(** X12: a comment request the gateway cannot use is answered without a
    single call to another service. A request that is not a POST gets 405
    "Method not allowed", a POST whose body does not decode gets 400
    "Invalid JSON"; in both cases no call is made and the filter and the
    store are left as they were. *)
Theorem X12_malformed_comment_makes_no_call
    (ds : Downstream) (rt : Runtime) (r : Request Comment) (wd : World ds) :
  let res := serveComment ds rt new_writer r wd in
  (req_method r <> MethodPost ->
   status (response_of (fst res)) = 405
   /\ body (response_of (fst res)) = [PlainText (lit "Method not allowed")]
   /\ snd res = wd)
  /\ (req_method r = MethodPost -> req_body r = None ->
      status (response_of (fst res)) = 400
      /\ body (response_of (fst res)) = [PlainText (lit "Invalid JSON")]
      /\ snd res = wd).
Proof.
  cbv zeta. split.
  - intros Hm. rewrite (serveComment_not_post ds rt r wd Hm). repeat split.
  - intros Hm Hb. rewrite (serveComment_bad_body ds rt r wd Hm Hb).
    repeat split.
Qed.

(** X13: what a comment request can make the gateway do, whatever the
    request and whatever the other services answer. The status is 200,
    400, 405 or 500. The gateway makes no call, or the check alone, or
    the check followed by one create; the create is made only when the
    check was accepted, and 200 is answered only when the create was
    accepted too. *)
Theorem X13_comment_route_call_discipline
    (ds : Downstream) (rt : Runtime) (r : Request Comment) (wd : World ds) :
  let res := serveComment ds rt new_writer r wd in
  let id := correlation_id rt r in
  (status (response_of (fst res)) = 200 \/ status (response_of (fst res)) = 400
   \/ status (response_of (fst res)) = 405
   \/ status (response_of (fst res)) = 500)
  /\ (calls (snd res) = calls wd /\ status (response_of (fst res)) <> 200
      \/ exists comment,
           req_body r = Some comment
           /\ let check := checkRequest (Text comment) id in
              let save := saveRequest comment id in
              (calls (snd res) = calls wd ++ [check]
               /\ status (response_of (fst res)) = 400
               /\ filter_accepted
                    (fst (censorService ds check (censor_state wd))) = false)
              \/ (calls (snd res) = calls wd ++ [check; save]
                  /\ filter_accepted
                       (fst (censorService ds check (censor_state wd))) = true
                  /\ (status (response_of (fst res)) = 200
                      <-> store_accepted
                            (fst (commentService ds save (store_state wd)))
                          = true))).
Proof.
  cbv zeta.
  destruct (gostring_eqb (req_method r) MethodPost) eqn:EM.
  - apply gostring_eqb_eq in EM. destruct (req_body r) as [comment|] eqn:EB.
    + rewrite (serveComment_run ds rt r comment wd EM EB). cbv zeta.
      destruct (filter_accepted _) eqn:F1.
      * destruct (store_accepted _) eqn:F2; cbn [fst snd calls].
        -- split; [left; reflexivity|]. right. exists comment.
           split; [reflexivity|]. right. rewrite <- app_assoc.
           split; [reflexivity|]. split; [exact F1|].
           split; intros _; [exact F2 | reflexivity].
        -- split; [right; right; right; reflexivity|]. right. exists comment.
           split; [reflexivity|]. right. rewrite <- app_assoc.
           split; [reflexivity|]. split; [exact F1|].
           split; intros H; [discriminate H | congruence].
      * cbn [fst snd calls]. split; [right; left; reflexivity|].
        right. exists comment. split; [reflexivity|]. left.
        split; [reflexivity|]. split; [reflexivity | exact F1].
    + rewrite (serveComment_bad_body ds rt r wd EM EB).
      split; [right; left; reflexivity|]. left. split; [reflexivity|].
      discriminate.
  - assert (Hm : req_method r <> MethodPost).
    { intros H. rewrite H in EM. discriminate. }
    rewrite (serveComment_not_post ds rt r wd Hm).
    split; [right; right; left; reflexivity|]. left.
    split; [reflexivity | discriminate].
Qed.

(** X14: the identifier a client puts in its payload is never used. Two
    comment requests that differ only in the [id] of the payload get the
    same response and lead to the same calls and the same states: only
    [news_id], [parent_id] and [text] are passed on. *)
Theorem X14_client_supplied_id_is_ignored
    (ds : Downstream) (rt : Runtime) (r1 r2 : Request Comment)
    (c1 c2 : Comment) (wd : World ds) :
  req_method r1 = req_method r2 ->
  req_header r1 = req_header r2 ->
  req_body r1 = Some c1 ->
  req_body r2 = Some c2 ->
  NewsID c1 = NewsID c2 ->
  ParentID c1 = ParentID c2 ->
  Text c1 = Text c2 ->
  serveComment ds rt new_writer r1 wd = serveComment ds rt new_writer r2 wd.
Proof.
  intros Hm Hh Hb1 Hb2 Hn Hp Ht.
  destruct (gostring_eqb (req_method r1) MethodPost) eqn:EM.
  - apply gostring_eqb_eq in EM.
    assert (EM2 : req_method r2 = MethodPost) by congruence.
    rewrite (serveComment_run ds rt r1 c1 wd EM Hb1).
    rewrite (serveComment_run ds rt r2 c2 wd EM2 Hb2). cbv zeta.
    assert (Hid : correlation_id rt r1 = correlation_id rt r2)
      by (unfold correlation_id; now rewrite Hh).
    assert (Hsave : saveRequest c1 (correlation_id rt r1)
                    = saveRequest c2 (correlation_id rt r2))
      by (unfold saveRequest; now rewrite Hn, Hp, Ht, Hid).
    now rewrite Hsave, Ht, Hid.
  - assert (H1 : req_method r1 <> MethodPost).
    { intros H. rewrite H in EM. discriminate. }
    assert (H2 : req_method r2 <> MethodPost) by congruence.
    now rewrite (serveComment_not_post ds rt r1 wd H1),
      (serveComment_not_post ds rt r2 wd H2).
Qed.

Lemma X14_witness_id_99 :
  let r1 := System.post_comment [] 7 (lit "hello") in
  let r2 := mkRequest MethodPost (lit "/comment") [] [] []
              (Some (mkComment 99 7 None (lit "hello"))) in
  req_body r1 <> req_body r2
  /\ serveComment System.deployment System.rt0 new_writer r1 (System.boot [] [])
     = serveComment System.deployment System.rt0 new_writer r2 (System.boot [] []).
Proof.
  cbv zeta. split; [discriminate|].
  apply (X14_client_supplied_id_is_ignored System.deployment System.rt0
           (System.post_comment [] 7 (lit "hello"))
           (mkRequest MethodPost (lit "/comment") [] [] []
              (Some (mkComment 99 7 None (lit "hello"))))
           (mkComment 0 7 None (lit "hello"))
           (mkComment 99 7 None (lit "hello")));
    reflexivity.
Defined.

Lemma serveNewsDetail_early (ds : Downstream) (rt : Runtime)
    (r : Request Comment) (wd : World ds) :
  (req_method r <> MethodGet ->
   serveNewsDetail ds rt new_writer r wd
   = (Error (lit "Method not allowed") StatusMethodNotAllowed new_writer, wd))
  /\ (req_method r = MethodGet ->
      TrimPrefix (req_path r) (lit "/news/") = [] ->
      serveNewsDetail ds rt new_writer r wd
      = (Error (lit "News ID is required") StatusBadRequest new_writer, wd))
  /\ (req_method r = MethodGet ->
      TrimPrefix (req_path r) (lit "/news/") <> [] ->
      Atoi (TrimPrefix (req_path r) (lit "/news/")) = None ->
      serveNewsDetail ds rt new_writer r wd
      = (Error (lit "Invalid news ID") StatusBadRequest new_writer, wd)).
Proof.
  unfold serveNewsDetail. rewrite loggingMiddleware_run.
  unfold newsDetailHandler. cbn [req_method req_path WithContext].
  split; [|split].
  - intros Hm.
    destruct (gostring_eqb (req_method r) MethodGet) eqn:E;
      [apply gostring_eqb_eq in E; contradiction|].
    reflexivity.
  - intros Hm Hp. now rewrite Hm, Hp.
  - intros Hm Hp Ha. rewrite Hm, Ha.
    destruct (gostring_eqb (TrimPrefix (req_path r) (lit "/news/")) []) eqn:E;
      [apply gostring_eqb_nil in E; contradiction|].
    reflexivity.
Qed.

(** X15: a news-detail request the gateway cannot use is answered
    without a call. A method other than GET gets 405; the path [/news/]
    with nothing after it gets 400 "News ID is required"; a path whose
    rest is not a decimal [int] gets 400 "Invalid news ID"; in all three
    cases no call is made. *)
Theorem X15_malformed_news_detail_makes_no_call
    (ds : Downstream) (rt : Runtime) (r : Request Comment) (p : gostring)
    (wd : World ds) :
  let res := serveNewsDetail ds rt new_writer r wd in
  (req_method r <> MethodGet ->
   status (response_of (fst res)) = 405 /\ snd res = wd)
  /\ (req_method r = MethodGet -> req_path r = lit "/news/" ->
      status (response_of (fst res)) = 400
      /\ body (response_of (fst res)) = [PlainText (lit "News ID is required")]
      /\ snd res = wd)
  /\ (req_method r = MethodGet -> req_path r = lit "/news/" ++ p ->
      p <> [] -> Atoi p = None ->
      status (response_of (fst res)) = 400
      /\ body (response_of (fst res)) = [PlainText (lit "Invalid news ID")]
      /\ snd res = wd).
Proof.
  cbv zeta. destruct (serveNewsDetail_early ds rt r wd) as (E1 & E2 & E3).
  split; [|split].
  - intros Hm. rewrite (E1 Hm). split; reflexivity.
  - intros Hm Hp. rewrite (E2 Hm) by (now rewrite Hp). repeat split.
  - intros Hm Hp Hne Ha.
    assert (Ht : TrimPrefix (req_path r) (lit "/news/") = p)
      by (rewrite Hp; apply TrimPrefix_app).
    rewrite (E3 Hm) by (now rewrite Ht). repeat split.
Qed.

(** X16: a news-detail request whose list call succeeds (status 200 and
    a body that decodes) is answered 200 with the news item and with the
    comments exactly as they were decoded, in their order; the gateway
    made that one call and no other. *)
Theorem X16_news_detail_shows_the_decoded_comments
    (ds : Downstream) (rt : Runtime) (r : Request Comment) (p : gostring)
    (newsID code : Z) (b : RespBody ds) (wd : World ds) :
  req_method r = MethodGet ->
  req_path r = lit "/news/" ++ p ->
  Atoi p = Some newsID ->
  let fetch := listRequest newsID (correlation_id rt r) in
  fst (commentService ds fetch (store_state wd)) = Replied code b ->
  list_fetched ds (Replied code b) = true ->
  let res := serveNewsDetail ds rt new_writer r wd in
  status (response_of (fst res)) = 200
  /\ body (response_of (fst res))
     = [JsonValue
          (news_full_json
             (mkNewsFullDetailed (mock_news rt newsID)
                (fst (decodeComments ds b))))]
  /\ calls (snd res) = calls wd ++ [fetch]
  /\ censor_state (snd res) = censor_state wd.
Proof.
  intros Hm Hp Ha fetch Hreply Hok res. subst res. unfold serveNewsDetail.
  rewrite loggingMiddleware_run.
  assert (Ha' : Atoi (TrimPrefix (req_path r) (lit "/news/")) = Some newsID)
    by (now rewrite Hp, TrimPrefix_app).
  rewrite (newsDetailHandler_run ds rt
             (WithContext r (WithValue (req_context r) (lit "request_id")
                               (correlation_id rt r)))
             newsID wd Hm Ha').
  cbv zeta. rewrite getRequestID_WithValue. fold fetch. rewrite Hreply.
  unfold shown_comments. rewrite Hok. cbn [fst snd calls censor_state].
  repeat split.
Qed.

Lemma X16_witness_one_comment :
  let wd := snd (System.serveComment System.rt0
                   (System.post_comment [] 7 (lit "hello"))
                   (System.boot [] [])) in
  let r := System.get_news [] (lit "/news/7") in
  let res := serveNewsDetail System.deployment System.rt0 new_writer r wd in
  req_method r = MethodGet
  /\ req_path r = lit "/news/" ++ lit "7"
  /\ Atoi (lit "7") = Some 7
  /\ status (response_of (fst res)) = 200
  /\ length (calls (snd res)) = 3%nat.
Proof.
  cbv zeta. split; [reflexivity|]. split; [reflexivity|].
  split; [vm_compute; reflexivity|].
  pose proof (X16_news_detail_shows_the_decoded_comments
                System.deployment System.rt0
                (System.get_news [] (lit "/news/7")) (lit "7") 7 200
                [JsonValue
                   (JArr [JObj [(lit "id", JInt 1); (lit "news_id", JInt 7);
                                (lit "text", JStr (lit "hello"))]])]
                (snd (System.serveComment System.rt0
                        (System.post_comment [] 7 (lit "hello"))
                        (System.boot [] [])))
                eq_refl eq_refl) as H.
  cbv zeta in H. destruct H as (Hs & _ & Hc & _).
  - vm_compute. reflexivity.
  - vm_compute. reflexivity.
  - vm_compute. reflexivity.
  - split; [exact Hs|]. rewrite Hc. vm_compute. reflexivity.
Defined.

(** X17: whatever the request and whatever the comment service does, the
    news-detail route answers 200, 400 or 405, never a 5xx; it never
    calls the filter, and it makes at most one call, to the comment
    service. *)
Theorem X17_news_detail_never_fails_with_5xx
    (ds : Downstream) (rt : Runtime) (r : Request Comment) (wd : World ds) :
  let res := serveNewsDetail ds rt new_writer r wd in
  (status (response_of (fst res)) = 200 \/ status (response_of (fst res)) = 400
   \/ status (response_of (fst res)) = 405)
  /\ censor_state (snd res) = censor_state wd
  /\ (calls (snd res) = calls wd
      \/ exists newsID,
           calls (snd res)
           = calls wd ++ [listRequest newsID (correlation_id rt r)]).
Proof.
  cbv zeta. destruct (serveNewsDetail_early ds rt r wd) as (E1 & E2 & E3).
  destruct (gostring_eqb (req_method r) MethodGet) eqn:EM.
  - apply gostring_eqb_eq in EM.
    destruct (Atoi (TrimPrefix (req_path r) (lit "/news/")))
      as [newsID|] eqn:EA.
    + unfold serveNewsDetail. rewrite loggingMiddleware_run.
      rewrite (newsDetailHandler_run ds rt
                 (WithContext r (WithValue (req_context r) (lit "request_id")
                                   (correlation_id rt r)))
                 newsID wd EM EA).
      cbv zeta. rewrite getRequestID_WithValue.
      cbn [fst snd calls censor_state].
      split; [left; reflexivity|]. split; [reflexivity|].
      right. now exists newsID.
    + destruct (TrimPrefix (req_path r) (lit "/news/")) as [|c p] eqn:EP.
      * rewrite (E2 EM eq_refl). split; [right; left; reflexivity|].
        split; [reflexivity | left; reflexivity].
      * rewrite (E3 EM) by (congruence || exact EA).
        split; [right; left; reflexivity|].
        split; [reflexivity | left; reflexivity].
  - assert (Hm : req_method r <> MethodGet).
    { intros H. rewrite H in EM. discriminate. }
    rewrite (E1 Hm). split; [right; right; reflexivity|].
    split; [reflexivity | left; reflexivity].
Qed.

End GatewayExtras.

(* ===================================================================== *)
(** * The news list                                                       *)
(* ===================================================================== *)

Section NewsFeedExtras.
Import Go NewsFeed Spec.

Lemma HasPrefix_spec (s prefix : gostring) :
  APIGateway.HasPrefix s prefix = true <-> exists rest, s = prefix ++ rest.
Proof.
  unfold APIGateway.HasPrefix. rewrite andb_true_iff, Nat.leb_le, gostring_eqb_eq.
  split.
  - intros [_ H]. exists (skipn (length prefix) s).
    now rewrite <- H at 1; rewrite firstn_skipn.
  - intros (rest & ->). rewrite length_app. split; [lia|].
    now rewrite firstn_app, Nat.sub_diag, firstn_all, firstn_O, app_nil_r.
Qed.

Lemma Contains_spec (s substr : gostring) :
  Contains s substr = true <-> is_substring substr s.
Proof.
  induction s as [|c s IH]; cbn [Contains]; rewrite orb_true_iff, HasPrefix_spec.
  - split.
    + intros [(rest & H)|H]; [|discriminate]. now exists [], rest.
    + intros (pre & post & H). left. exists post.
      destruct pre; [exact H | discriminate H].
  - rewrite IH. split.
    + intros [(rest & H)|(pre & post & H)].
      * now exists [], rest.
      * exists (c :: pre), post. now rewrite H.
    + intros (pre & post & H). destruct pre as [|c' pre].
      * left. now exists post.
      * right. injection H as _ H. now exists pre, post.
Qed.

(** X18: the page count of the news list. For [n] items, ten to a page,
    [totalPages n] is [n / 10] rounded up, and 1 when there are ten
    items or fewer (no item included). *)
Theorem X18_totalPages_is_ceiling (n : Z) :
  0 <= n -> totalPages n = Z.max 1 ((n + 9) / 10).
Proof.
  intros Hn. unfold totalPages.
  destruct (Z.gtb_spec n 10); [destruct (Z.eqb_spec (Z.rem n 10) 0)|];
    Z.to_euclidean_division_equations; lia.
Qed.

Lemma X18_witness_21_items : 0 <= 21 /\ totalPages 21 = 3.
Proof.
  split; [lia|]. rewrite (X18_totalPages_is_ceiling 21); [reflexivity | lia].
Defined.

Lemma search_loop_spec (ToLower : gostring -> gostring)
    (news : list APIGateway.NewsShortDetailed) (q : gostring) :
  forall acc,
    to_list (search_loop ToLower news q acc)
    = to_list acc
      ++ filter (fun n => Contains (ToLower (APIGateway.Title n)) (ToLower q))
           news.
Proof.
  induction news as [|n news IH]; intros acc; cbn [search_loop filter].
  - now rewrite app_nil_r.
  - destruct (Contains _ _); [|apply IH].
    rewrite IH. cbn [to_list append]. now rewrite <- app_assoc.
Qed.

Lemma search_loop_nil (ToLower : gostring -> gostring)
    (news : list APIGateway.NewsShortDetailed) (q : gostring) :
  filter (fun n => Contains (ToLower (APIGateway.Title n)) (ToLower q)) news = [] ->
  search_loop ToLower news q nil_slice = nil_slice.
Proof.
  induction news as [|n news IH]; cbn [search_loop filter]; [reflexivity|].
  destruct (Contains _ _); [discriminate | exact IH].
Qed.

(** The search parameter in force: [s], or [search] when [s] is empty. *)
Lemma newsHandler_run (ToLower : gostring -> gostring) {T} (now1 now2 : Z)
    (r : Request T) :
  req_method r = MethodGet ->
  let q := match Query_Get r (lit "s") with
           | [] => Query_Get r (lit "search")
           | s => s
           end in
  let page := match Atoi (Query_Get r (lit "page")) with
              | Some p => if p >? 0 then p else 1
              | None => 1
              end in
  let news := match q with
              | [] => make_slice (mock_items now1 now2)
              | _ => search_loop ToLower (mock_items now1 now2) q nil_slice
              end in
  newsHandler ToLower now1 now2 new_writer r
  = Encode (news_response_json
              (mkNewsResponse news (mkPagination page (totalPages (len news)))))
      (Header_Set (lit "Content-Type") (lit "application/json") new_writer).
Proof.
  intros Hm. cbv zeta. unfold newsHandler. rewrite Hm.
  change (gostring_eqb MethodGet MethodGet) with true. cbn [negb].
  assert (Hpage : (if negb (gostring_eqb (Query_Get r (lit "page")) [])
                   then match Atoi (Query_Get r (lit "page")) with
                        | Some p => if p >? 0 then p else 1
                        | None => 1
                        end
                   else 1)
                  = match Atoi (Query_Get r (lit "page")) with
                    | Some p => if p >? 0 then p else 1
                    | None => 1
                    end).
  { destruct (Query_Get r (lit "page")); reflexivity. }
  rewrite Hpage.
  destruct (Query_Get r (lit "s")) as [|c s]; cbn [gostring_eqb].
  - destruct (Query_Get r (lit "search")); reflexivity.
  - reflexivity.
Qed.

Lemma sublist_length_le {A} (f : A -> bool) (l : list A) :
  (length (filter f l) <= length l)%nat.
Proof.
  induction l as [|x l IH]; cbn [filter]; [lia|].
  destruct (f x); simpl; lia.
Qed.

(** X19: paging of the news list. Every GET of [/news] is answered 200
    with JSON; the page echoed is the [page] parameter when it is a
    decimal [int] above 0 and 1 in every other case (missing, empty, not
    a number, zero, negative); [total_pages] is 1 for every request, as
    the list never has more than the two mocked items. *)
Theorem X19_news_paging (ToLower : gostring -> gostring) (now1 now2 : Z)
    (r : Request unit) :
  req_method r = MethodGet ->
  let resp := response_of (newsHandler ToLower now1 now2 new_writer r) in
  status resp = 200
  /\ header_get (lit "Content-Type") (header resp) = lit "application/json"
  /\ exists news page,
       body resp
       = [JsonValue (news_response_json
                       (mkNewsResponse news (mkPagination page 1)))]
       /\ (length (to_list news) <= 2)%nat
       /\ 1 <= page
       /\ (forall p, Atoi (Query_Get r (lit "page")) = Some p -> 0 < p ->
             page = p)
       /\ ((forall p, Atoi (Query_Get r (lit "page")) = Some p -> p <= 0) ->
           page = 1).
Proof.
  intros Hm. cbv zeta. rewrite (newsHandler_run ToLower now1 now2 r Hm).
  cbv zeta. split; [reflexivity|]. split; [reflexivity|].
  eexists _, _. cbn [response_of Encode Write WriteHeader Header_Set rw_sent
                     rw_body rw_header new_writer body app].
  assert (Hlen : (length (to_list
                    match match Query_Get r (lit "s") with
                          | [] => Query_Get r (lit "search")
                          | s => s
                          end with
                    | [] => make_slice (mock_items now1 now2)
                    | _ => search_loop ToLower (mock_items now1 now2)
                             match Query_Get r (lit "s") with
                             | [] => Query_Get r (lit "search")
                             | s => s
                             end nil_slice
                    end) <= 2)%nat).
  { destruct (match Query_Get r (lit "s") with
              | [] => Query_Get r (lit "search")
              | s => s
              end) as [|c q]; [simpl; lia|].
    rewrite search_loop_spec. cbn [to_list app].
    apply (sublist_length_le _ (mock_items now1 now2)). }
  split; [|split; [exact Hlen|split; [|split]]].
  - do 4 f_equal. unfold totalPages, len.
    destruct (Z.gtb_spec (Z.of_nat (length (to_list
                match match Query_Get r (lit "s") with
                      | [] => Query_Get r (lit "search")
                      | s => s
                      end with
                | [] => make_slice (mock_items now1 now2)
                | _ => search_loop ToLower (mock_items now1 now2)
                         match Query_Get r (lit "s") with
                         | [] => Query_Get r (lit "search")
                         | s => s
                         end nil_slice
                end))) 10); [lia | reflexivity].
  - destruct (Atoi (Query_Get r (lit "page"))) as [p|]; [|lia].
    destruct (Z.gtb_spec p 0); lia.
  - intros p Hp Hpos. rewrite Hp.
    destruct (Z.gtb_spec p 0); [reflexivity | lia].
  - intros Hall. destruct (Atoi (Query_Get r (lit "page"))) as [p|];
      [|reflexivity].
    specialize (Hall p eq_refl). destruct (Z.gtb_spec p 0); [lia | reflexivity].
Qed.

Lemma X19_witness_page_3 :
  let r := get_news_list [(lit "page", lit "3")] in
  req_method r = MethodGet
  /\ status (response_of (newsHandler CensorService.toLower 0 0 new_writer r))
     = 200.
Proof.
  cbv zeta. split; [reflexivity|].
  exact (proj1 (X19_news_paging CensorService.toLower 0 0
                  (get_news_list [(lit "page", lit "3")]) eq_refl)).
Defined.

Lemma search_shape (ToLower : gostring -> gostring) (now1 now2 : Z)
    (r : Request unit) :
  req_method r = MethodGet ->
  let q := match Query_Get r (lit "s") with
           | [] => Query_Get r (lit "search")
           | s => s
           end in
  exists news paging,
    body (response_of (newsHandler ToLower now1 now2 new_writer r))
    = [JsonValue (JObj [(lit "news", json_slice news_short_json news);
                        (lit "pagination", paging)])]
    /\ (q = [] -> news = make_slice (mock_items now1 now2))
    /\ (q <> [] ->
        to_list news
        = filter (fun n => Contains (ToLower (APIGateway.Title n)) (ToLower q))
            (mock_items now1 now2)
        /\ (to_list news = [] -> json_slice news_short_json news = JNull)).
Proof.
  intros Hm. cbv zeta. rewrite (newsHandler_run ToLower now1 now2 r Hm).
  cbv zeta.
  destruct (match Query_Get r (lit "s") with
            | [] => Query_Get r (lit "search")
            | s => s
            end) as [|c q'].
  - eexists _, _. split; [reflexivity|]. split; [reflexivity|].
    intros H. contradiction.
  - eexists _, _. split; [reflexivity|]. split; [discriminate|]. intros _.
    cbn [News]. rewrite search_loop_spec. cbn [to_list app]. split; [reflexivity|].
    intros Hnone. now rewrite (search_loop_nil _ _ _ Hnone).
Qed.

(** X20: searching the news list. The query is the [s] parameter, or
    [search] when [s] is missing or empty. Without a query both mocked
    items are returned, in their order; with a query the items returned
    are those whose lowered title contains the lowered query, in their
    order, and when nothing matches the list is the nil slice, which is
    written as [null] and not as [[]]. *)
Theorem X20_news_search (ToLower : gostring -> gostring) (now1 now2 : Z)
    (r : Request unit) :
  req_method r = MethodGet ->
  let q := match Query_Get r (lit "s") with
           | [] => Query_Get r (lit "search")
           | s => s
           end in
  exists news paging,
    body (response_of (newsHandler ToLower now1 now2 new_writer r))
    = [JsonValue (JObj [(lit "news", json_slice news_short_json news);
                        (lit "pagination", paging)])]
    /\ (q = [] -> news = make_slice (mock_items now1 now2))
    /\ (q <> [] ->
        to_list news
        = filter (fun n => Contains (ToLower (APIGateway.Title n)) (ToLower q))
            (mock_items now1 now2)
        /\ (to_list news = [] -> json_slice news_short_json news = JNull)).
Proof. exact (search_shape ToLower now1 now2 r). Qed.

Lemma X20_witness_no_match :
  let r := get_news_list [(lit "search", lit "weather")] in
  req_method r = MethodGet
  /\ exists news paging,
       body (response_of (newsHandler CensorService.toLower 0 0 new_writer r))
       = [JsonValue (JObj [(lit "news", json_slice news_short_json news);
                           (lit "pagination", paging)])]
       /\ json_slice news_short_json news = JNull.
Proof.
  cbv zeta. split; [reflexivity|].
  destruct (X20_news_search CensorService.toLower 0 0
              (get_news_list [(lit "search", lit "weather")]) eq_refl)
    as (news & paging & Hb & _ & H).
  exists news, paging. split; [exact Hb|].
  destruct H as [Hl Hn]; [vm_compute; discriminate|].
  apply Hn. rewrite Hl. vm_compute. reflexivity.
Defined.

Lemma mock_titles_ascii (now1 now2 : Z) (n : APIGateway.NewsShortDetailed) :
  In n (mock_items now1 now2) -> ascii_only (APIGateway.Title n).
Proof.
  intros [<-|[<-|[]]]; cbn [APIGateway.Title]; unfold ascii_only;
    repeat constructor.
Qed.

(** X21: the search ignores the case of ASCII letters. [strings.ToLower]
    lowers the letters A-Z, and nothing else, in a text that is all
    ASCII; given that, for a query in ASCII an item is returned exactly
    when its title contains the query with its letters in some case. *)
Theorem X21_news_search_ignores_ascii_case
    (ToLower : gostring -> gostring) (now1 now2 : Z) (r : Request unit)
    (q : gostring) :
  (forall s, ascii_only s -> ToLower s = CensorService.toLower s) ->
  req_method r = MethodGet ->
  Query_Get r (lit "s") = q ->
  q <> [] ->
  ascii_only q ->
  exists news paging,
    body (response_of (newsHandler ToLower now1 now2 new_writer r))
    = [JsonValue (JObj [(lit "news", json_slice news_short_json news);
                        (lit "pagination", paging)])]
    /\ forall n,
         In n (to_list news)
         <-> In n (mock_items now1 now2)
             /\ exists v, ascii_case_variant v q
                          /\ is_substring v (APIGateway.Title n).
Proof.
  intros Hascii Hm Hs Hq Hqa.
  destruct (search_shape ToLower now1 now2 r Hm) as (news & paging & Hb & _ & H).
  rewrite Hs in H.
  assert (Hl : to_list news
               = filter (fun n => Contains (ToLower (APIGateway.Title n))
                                    (ToLower q))
                   (mock_items now1 now2)).
  { destruct q as [|c q']; [contradiction|]. now destruct (H Hq). }
  exists news, paging. split; [exact Hb|]. intros n. rewrite Hl, filter_In.
  split.
  - intros [Hin Hc]. split; [exact Hin|].
    rewrite (Hascii _ (mock_titles_ascii now1 now2 n Hin)), (Hascii q Hqa) in Hc.
    apply Contains_spec in Hc. now apply lowered_occurrence.
  - intros [Hin Hv]. split; [exact Hin|].
    rewrite (Hascii _ (mock_titles_ascii now1 now2 n Hin)), (Hascii q Hqa).
    apply Contains_spec. now apply lowered_occurrence.
Qed.

Lemma X21_witness_FIRST :
  let r := get_news_list [(lit "s", lit "FIRST")] in
  (forall s, ascii_only s -> CensorService.toLower s = CensorService.toLower s)
  /\ req_method r = MethodGet
  /\ ascii_only (lit "FIRST")
  /\ exists news paging,
       body (response_of (newsHandler CensorService.toLower 0 0 new_writer r))
       = [JsonValue (JObj [(lit "news", json_slice news_short_json news);
                           (lit "pagination", paging)])]
       /\ exists n, In n (to_list news) /\ APIGateway.Title n = lit "First News".
Proof.
  cbv zeta.
  assert (Ha : ascii_only (lit "FIRST"))
    by (unfold ascii_only; repeat constructor).
  split; [reflexivity|]. split; [reflexivity|]. split; [exact Ha|].
  destruct (X21_news_search_ignores_ascii_case CensorService.toLower 0 0
              (get_news_list [(lit "s", lit "FIRST")]) (lit "FIRST")
              (fun s _ => eq_refl) eq_refl eq_refl)
    as (news & paging & Hb & Hin); [discriminate | exact Ha |].
  exists news, paging. split; [exact Hb|].
  exists (APIGateway.mkNewsShortDetailed 1 (lit "First News")
            (lit "This is the content of the first news article")
            (0 + (-24) * Hour)).
  split; [|reflexivity]. apply Hin. split; [left; reflexivity|].
  exists (lit "First"). split.
  - apply ascii_case_variant_toLower. reflexivity.
  - exists [], (lit " News"). reflexivity.
Defined.

End NewsFeedExtras.
